(** * Voice Ingest: watch, transcribe, webhook

    A shallow embedding of [src/main.py] and the properties of its
    ingestion state machine.

    The service watches a directory for audio files, posts each one to a
    speech-to-text endpoint, relays the transcript to a webhook and, on a
    confirmed delivery, records the file name in a durable Processed-Set and
    deletes the file.

    Modelling conventions.
    - A Python [str] is a [string]; one [ascii] stands for one character.
    - A Python [float] is a binary64 [float], with the arithmetic of the
      machine; an [int] is a [Z].
    - The effects of the program (log lines, HTTP calls, writes of the state
      file, deletions) are recorded, oldest first, in the [trace] of the
      system state.
    - Python exceptions are an explicit outcome; the state reached when an
      exception is raised is kept, since mutations made before a [raise]
      are not undone.
    - Everything the program asks of its surroundings (the clock, the two
      HTTP endpoints, faults of the file system) is answered by a [World].
    - A path is identified with its final component, the watch directory
      being scanned without recursion. *)

From Stdlib Require Import ZArith QArith String Ascii List Permutation Floats.
From stdpp Require Import base gmap sets list strings sorting pretty.
Import ListNotations.

Local Open Scope Z_scope.
Local Open Scope string_scope.
Local Open Scope list_scope.

(** ** Python built-ins used by the service *)

Module Py.

(** [str.isspace] on one character, for the code points below 256:
    TAB..CR, FS..US, SPACE, NEL and NBSP. *)
Definition isspace (c : ascii) : bool :=
  let n := N_of_ascii c in
  ((9 <=? n) && (n <=? 13) || (28 <=? n) && (n <=? 32)
   || (n =? 133) || (n =? 160))%N.

Fixpoint lstrip (s : string) : string :=
  match s with
  | String c s' => if isspace c then lstrip s' else s
  | EmptyString => EmptyString
  end.

(** What is left of [s] once its trailing white space is removed. *)
Fixpoint rstrip (s : string) : string :=
  match s with
  | EmptyString => EmptyString
  | String c s' =>
      match rstrip s' with
      | EmptyString => if isspace c then EmptyString else String c EmptyString
      | r => String c r
      end
  end.

(** [s.strip()] *)
Definition strip (s : string) : string := rstrip (lstrip s).

(** [s] is empty or holds white space only. *)
Fixpoint all_space (s : string) : bool :=
  match s with
  | EmptyString => true
  | String c s' => isspace c && all_space s'
  end.

(** [str.lower] on one character. Only A..Z are mapped: the service
    compares the result with ASCII extensions, and no other character
    lowers to an ASCII letter of those extensions. *)
Definition lower_char (c : ascii) : ascii :=
  let n := N_of_ascii c in
  if ((65 <=? n) && (n <=? 90))%N then ascii_of_N (n + 32) else c.

Fixpoint lower (s : string) : string :=
  match s with
  | EmptyString => EmptyString
  | String c s' => String (lower_char c) (lower s')
  end.

(** [s.rstrip('/')] *)
Fixpoint rstrip_slash (s : string) : string :=
  match s with
  | EmptyString => EmptyString
  | String c s' =>
      match rstrip_slash s' with
      | EmptyString => if Ascii.eqb c "/" then EmptyString else String c EmptyString
      | r => String c r
      end
  end.

(** [s.rfind('.')], as an offset from the start of [s]. *)
Fixpoint rfind_dot (s : string) : option nat :=
  match s with
  | EmptyString => None
  | String c s' =>
      match rfind_dot s' with
      | Some i => Some (S i)
      | None => if Ascii.eqb c "." then Some O else None
      end
  end.

Fixpoint drop_chars (n : nat) (s : string) : string :=
  match n, s with
  | O, _ => s
  | S n', String _ s' => drop_chars n' s'
  | S _, EmptyString => EmptyString
  end.

(** [pathlib.PurePath.suffix] of a file name: the text from the last dot
    on, unless that dot opens or closes the name. *)
Definition suffix (name : string) : string :=
  match rfind_dot name with
  | Some i =>
      if ((0 <? i)%nat && (i <? String.length name - 1)%nat)%bool
      then drop_chars i name else ""
  | None => ""
  end.

(** [sorted] on strings: by code point, lexicographically. *)
Definition str_le (a b : string) : Prop := String.leb a b = true.

#[global] Instance str_le_dec a b : Decision (str_le a b).
Proof. unfold str_le. apply _. Defined.

Definition sorted (l : list string) : list string := merge_sort str_le l.

(** The number that a finite float stands for. *)
Definition float_value (x : float) : option Q :=
  match Prim2SF x with
  | S754_zero _ => Some 0%Q
  | S754_finite neg m e =>
      Some (inject_Z (if neg then Z.neg m else Z.pos m) * Qpower 2 e)%Q
  | S754_infinity _ | S754_nan => None
  end.

(** [x < y] on rationals. *)
Definition Qltb (x y : Q) : bool := negb (Qle_bool y x).

(** [x < n] for a float [x] and an int [n]: Python compares the two by
    value, without rounding [n]; a NaN is below nothing. *)
Definition float_lt_int (x : float) (n : Z) : bool :=
  match float_value x with
  | Some q => Qltb q (inject_Z n)
  | None => match Prim2SF x with S754_infinity true => true | _ => false end
  end.

(** The first [n] characters, [s[:n]]. *)
Fixpoint take_chars (n : nat) (s : string) : string :=
  match n, s with
  | S n', String c s' => String c (take_chars n' s')
  | _, _ => EmptyString
  end.

End Py.

(** ** JSON documents as Python values *)

#[local] Set Warnings "-register-all".

Inductive json : Type :=
| JNull
| JBool (b : bool)
| JInt (n : Z)
| JFloat (repr : string)      (* a float, by its [repr] *)
| JStr (s : string)
| JArr (items : list json)
| JObj (fields : list (string * json)).

Module Json.

(** [d.get(key)] on the items of a [dict]; [None] when the key is absent. *)
Fixpoint lookup (key : string) (fields : list (string * json)) : option json :=
  match fields with
  | [] => None
  | (k, v) :: rest => if String.eqb k key then Some v else lookup key rest
  end.

(** [d.get(key, default)] *)
Definition get (key : string) (default : json) (fields : list (string * json)) : json :=
  match lookup key fields with
  | Some v => v
  | None => default
  end.

(** Python truth value of a decoded JSON value. *)
Definition truthy (v : json) : bool :=
  match v with
  | JNull => false
  | JBool b => b
  | JInt n => negb (n =? 0)%Z
  | JFloat r => negb (String.eqb r "0.0" || String.eqb r "-0.0")
  | JStr s => negb (String.eqb s "")
  | JArr l => match l with [] => false | _ => true end
  | JObj l => match l with [] => false | _ => true end
  end.

Definition is_str (v : json) : bool :=
  match v with JStr _ => true | _ => false end.

(** Lists and dicts are the JSON values Python cannot hash. *)
Definition hashable (v : json) : bool :=
  match v with JArr _ | JObj _ => false | _ => true end.

Definition str_of (v : json) : option string :=
  match v with JStr s => Some s | _ => None end.

End Json.

#[local] Set Warnings "register-all".

(** ** A reader and a writer of JSON text

    A reference pair for the two functions of Python's [json] module that
    the service calls, on which the definitions are run: [dumps] writes
    what [json.dumps(v, indent=2)] writes, and [loads] reads a part of the
    JSON grammar: numbers without fraction or exponent, and characters or
    escapes of the code points below 256. It answers [None] on any other
    text. The properties of the service are proved for any reader and
    writer. *)

Module JsonText.

Definition dquote : ascii := "034"%char.
Definition newline : ascii := "010"%char.

Definition hex_digit (n : N) : ascii :=
  ascii_of_N (if (n <? 10)%N then 48 + n else 87 + n)%N.

(** The escape of one character, all but the printable ASCII ones being
    escaped. *)
Definition escape_char (c : ascii) : string :=
  let n := N_of_ascii c in
  if (n =? 34)%N then String "\" (String dquote "")
  else if (n =? 92)%N then "\\"
  else if (n =? 10)%N then "\n"
  else if (n =? 13)%N then "\r"
  else if (n =? 9)%N then "\t"
  else if (n =? 8)%N then "\b"
  else if (n =? 12)%N then "\f"
  else if ((32 <=? n) && (n <=? 126))%N then String c ""
  else "\u00" ++ String (hex_digit (n / 16)) (String (hex_digit (n mod 16)) "").

Fixpoint escape (s : string) : string :=
  match s with
  | EmptyString => EmptyString
  | String c s' => escape_char c ++ escape s'
  end.

Definition quote (s : string) : string :=
  String dquote (escape s ++ String dquote "").

Fixpoint spaces (n : nat) : string :=
  match n with
  | O => ""
  | S n' => String " " (spaces n')
  end.

Fixpoint join (sep : string) (parts : list string) : string :=
  match parts with
  | [] => ""
  | [p] => p
  | p :: rest => p ++ sep ++ join sep rest
  end.

(** The text of [v] at nesting depth [depth], two spaces a level. *)
Fixpoint dumps_at (depth : nat) (v : json) : string :=
  let inner := String newline (spaces (2 * S depth)) in
  let outer := String newline (spaces (2 * depth)) in
  match v with
  | JNull => "null"
  | JBool true => "true"
  | JBool false => "false"
  | JInt n => pretty n
  | JFloat r => r
  | JStr s => quote s
  | JArr [] => "[]"
  | JArr items =>
      "[" ++ inner ++ join ("," ++ inner) (map (dumps_at (S depth)) items)
          ++ outer ++ "]"
  | JObj [] => "{}"
  | JObj fields =>
      "{" ++ inner
          ++ join ("," ++ inner)
               (map (fun kv => (quote (fst kv) ++ ": " ++ dumps_at (S depth) (snd kv))%string)
                    fields)
          ++ outer ++ "}"
  end.

Definition dumps (v : json) : string := dumps_at 0 v.

Definition is_ws (c : ascii) : bool :=
  let n := N_of_ascii c in
  ((n =? 32) || (n =? 9) || (n =? 10) || (n =? 13))%N.

Fixpoint skip_ws (s : string) : string :=
  match s with
  | String c s' => if is_ws c then skip_ws s' else s
  | EmptyString => EmptyString
  end.

Definition hex_value (c : ascii) : option N :=
  let n := N_of_ascii c in
  if ((48 <=? n) && (n <=? 57))%N then Some (n - 48)%N
  else if ((97 <=? n) && (n <=? 102))%N then Some (n - 87)%N
  else if ((65 <=? n) && (n <=? 70))%N then Some (n - 55)%N
  else None.

(** The character that follows a backslash, for the one-letter escapes. *)
Definition unescape (c : ascii) : option ascii :=
  let n := N_of_ascii c in
  if (n =? 34)%N then Some dquote
  else if (n =? 92)%N then Some "\"%char
  else if (n =? 47)%N then Some "/"%char
  else if (n =? 110)%N then Some newline
  else if (n =? 114)%N then Some "013"%char
  else if (n =? 116)%N then Some "009"%char
  else if (n =? 98)%N then Some "008"%char
  else if (n =? 102)%N then Some "012"%char
  else None.

Definition cons_char (c : ascii) (r : option (string * string)) : option (string * string) :=
  match r with
  | Some (s, rest) => Some (String c s, rest)
  | None => None
  end.

(** The body of a string literal, after its opening quote: the decoded
    string and the text after the closing quote. *)
Fixpoint read_chars (s : string) : option (string * string) :=
  match s with
  | EmptyString => None
  | String c rest =>
      if Ascii.eqb c dquote then Some ("", rest)
      else if Ascii.eqb c "\" then
        match rest with
        | String e rest1 =>
            if Ascii.eqb e "u" then
              match rest1 with
              | String h1 (String h2 (String h3 (String h4 rest2))) =>
                  match hex_value h1, hex_value h2, hex_value h3, hex_value h4 with
                  | Some 0%N, Some 0%N, Some a, Some b =>
                      cons_char (ascii_of_N (16 * a + b)) (read_chars rest2)
                  | _, _, _, _ => None
                  end
              | _ => None
              end
            else
              match unescape e with
              | Some d => cons_char d (read_chars rest1)
              | None => None
              end
        | EmptyString => None
        end
      else if (N_of_ascii c <? 32)%N then None
      else cons_char c (read_chars rest)
  end.

Definition is_digit (c : ascii) : bool :=
  let n := N_of_ascii c in ((48 <=? n) && (n <=? 57))%N.

(** The digits that open [s], their value on top of [acc], and the rest. *)
Fixpoint read_digits (acc : Z) (s : string) : Z * string :=
  match s with
  | String c s' =>
      if is_digit c
      then read_digits (10 * acc + Z.of_N (N_of_ascii c) - 48)%Z s'
      else (acc, s)
  | EmptyString => (acc, s)
  end.

(** An integer literal. Literals with a fraction or an exponent are not
    read. *)
Definition read_int (s : string) : option (json * string) :=
  let (neg, body) :=
    match s with
    | String c s' => if Ascii.eqb c "-" then (true, s') else (false, s)
    | EmptyString => (false, s)
    end in
  match body with
  | String c _ =>
      if is_digit c then
        let (n, rest) := read_digits 0 body in
        match rest with
        | String d _ =>
            if Ascii.eqb d "." || Ascii.eqb d "e" || Ascii.eqb d "E" then None
            else Some (JInt (if neg then - n else n)%Z, rest)
        | EmptyString => Some (JInt (if neg then - n else n)%Z, rest)
        end
      else None
  | EmptyString => None
  end.

Definition starts_with (p s : string) : option string :=
  if String.prefix p s then Some (Py.drop_chars (String.length p) s) else None.

(** [d[k] = v] on the items of a dict: a later pair replaces an earlier
    one of the same key. *)
Fixpoint dict_set (k : string) (v : json) (fields : list (string * json))
    : list (string * json) :=
  match fields with
  | [] => [(k, v)]
  | (k', v') :: rest =>
      if String.eqb k' k then (k', v) :: rest else (k', v') :: dict_set k v rest
  end.

(** One value, and what follows it. [fuel] bounds the number of nested
    calls; the length of the text is enough. *)
Fixpoint read_value (fuel : nat) (s : string) : option (json * string) :=
  match fuel with
  | O => None
  | S fuel' =>
      match skip_ws s with
      | EmptyString => None
      | String c rest =>
          if Ascii.eqb c dquote then
            match read_chars rest with
            | Some (str, rest') => Some (JStr str, rest')
            | None => None
            end
          else if Ascii.eqb c "[" then
            match skip_ws rest with
            | String d rest' =>
                if Ascii.eqb d "]" then Some (JArr [], rest')
                else read_items fuel' [] rest
            | EmptyString => None
            end
          else if Ascii.eqb c "{" then
            match skip_ws rest with
            | String d rest' =>
                if Ascii.eqb d "}" then Some (JObj [], rest')
                else read_fields fuel' [] rest
            | EmptyString => None
            end
          else
            match starts_with "null" (String c rest),
                  starts_with "true" (String c rest),
                  starts_with "false" (String c rest) with
            | Some r, _, _ => Some (JNull, r)
            | _, Some r, _ => Some (JBool true, r)
            | _, _, Some r => Some (JBool false, r)
            | _, _, _ => read_int (String c rest)
            end
      end
  end
with read_items (fuel : nat) (acc : list json) (s : string) : option (json * string) :=
  match fuel with
  | O => None
  | S fuel' =>
      match read_value fuel' s with
      | Some (v, rest) =>
          match skip_ws rest with
          | String d rest' =>
              if Ascii.eqb d "," then read_items fuel' (acc ++ [v]) rest'
              else if Ascii.eqb d "]" then Some (JArr (acc ++ [v]), rest')
              else None
          | EmptyString => None
          end
      | None => None
      end
  end
with read_fields (fuel : nat) (acc : list (string * json)) (s : string)
    : option (json * string) :=
  match fuel with
  | O => None
  | S fuel' =>
      match skip_ws s with
      | String q rest =>
          if Ascii.eqb q dquote then
            match read_chars rest with
            | Some (k, rest1) =>
                match skip_ws rest1 with
                | String colon rest2 =>
                    if Ascii.eqb colon ":" then
                      match read_value fuel' rest2 with
                      | Some (v, rest3) =>
                          match skip_ws rest3 with
                          | String d rest4 =>
                              if Ascii.eqb d "," then read_fields fuel' (dict_set k v acc) rest4
                              else if Ascii.eqb d "}" then Some (JObj (dict_set k v acc), rest4)
                              else None
                          | EmptyString => None
                          end
                      | None => None
                      end
                    else None
                | EmptyString => None
                end
            | None => None
            end
          else None
      | EmptyString => None
      end
  end.

(** [json.loads] on that part of the grammar: one value, white space
    around it, nothing else. *)
Definition loads (text : string) : option json :=
  match read_value (S (String.length text)) text with
  | Some (v, rest) =>
      match skip_ws rest with
      | EmptyString => Some v
      | _ => None
      end
  | None => None
  end.

End JsonText.

(** ** Configuration *)

(** The module-level settings, read once from the environment. *)
Record Config : Type := mkConfig {
  WATCH_DIR : string;
  STT_URL : string;
  STT_MODEL : string;
  OPENCLAW_URL : string;
  OPENCLAW_HOOK_TOKEN : string;
  OPENCLAW_HOOK_PATH : string;
  POLL_INTERVAL : Z;
  DELETE_AFTER : bool;
  LOG_LEVEL : string;
  MIN_FILE_AGE : Z;
  STATE_FILE : string
}.

Definition AUDIO_EXTENSIONS : list string :=
  [".m4a"; ".ogg"; ".wav"; ".mp3"; ".opus"; ".flac"; ".wma"].

(** [os.getenv(key, default)] *)
Definition getenv (env : gmap string string) (key default : string) : string :=
  match env !! key with
  | Some v => v
  | None => default
  end.

(** The settings as lines 23-38 compute them. The two integer settings
    are taken already parsed ([poll_interval], [min_file_age]). *)
Definition config_of_env (env : gmap string string)
    (poll_interval min_file_age : Z) : Config :=
  {| WATCH_DIR := getenv env "WATCH_DIR" "/data/voice";
     STT_URL := getenv env "STT_URL" "";
     STT_MODEL := getenv env "STT_MODEL" "deepdml/faster-whisper-large-v3-turbo-ct2";
     OPENCLAW_URL := getenv env "OPENCLAW_URL" "";
     OPENCLAW_HOOK_TOKEN := getenv env "OPENCLAW_HOOK_TOKEN" "";
     OPENCLAW_HOOK_PATH := getenv env "OPENCLAW_HOOK_PATH" "/hooks/agent";
     POLL_INTERVAL := poll_interval;
     DELETE_AFTER :=
       String.eqb (Py.lower (getenv env "DELETE_AFTER_TRANSCRIBE" "true")) "true";
     LOG_LEVEL := getenv env "LOG_LEVEL" "INFO";
     MIN_FILE_AGE := min_file_age;
     STATE_FILE := getenv env "STATE_FILE" "/data/state/processed.json" |}.

(** ** Exceptions, effects and the system state *)

Inductive exn : Type :=
| OSError               (* an [OSError] other than the next one *)
| FileNotFoundError     (* a subclass of [OSError] *)
| RequestException      (* [requests.RequestException] and its subclasses *)
| JSONDecodeError
| KeyError
| AttributeError
| TypeError
| SystemExit (code : Z).

(** [except OSError] *)
Definition is_OSError (e : exn) : bool :=
  match e with OSError | FileNotFoundError => true | _ => false end.

Inductive level : Type := DEBUG | INFO | WARNING | ERROR.

(** What the delivery request carries besides the fixed instructions. *)
Record Metadata : Type := mkMetadata {
  audio_file : string;
  recorded_at : float;          (* the modification time, before rendering *)
  duration : option json;       (* [None] stands for "unknown" *)
  file_size : Z
}.

Record HookRequest : Type := mkHookRequest {
  webhook_url : string;
  bearer : string;
  sessionKey : string;
  transcript : string;
  metadata : Metadata
}.

Inductive event : Type :=
| Log (lvl : level) (fmt : string)         (* a log call, by its format string *)
| SttPost (url model file : string)        (* the upload to the STT endpoint *)
| HookPost (req : HookRequest)             (* the POST to the webhook *)
| WriteState (text : string)               (* [STATE_FILE.write_text] *)
| Unlink (file : string)                   (* [audio_path.unlink()] *)
| Mkdir (dir : string).

(** An entry of the watch directory. *)
Record DirEntry : Type := mkEntry {
  is_dir : bool;
  st_mtime : float;
  st_size : Z
}.

(** The state the service acts on. [processed] is the one in-memory set
    that [main] creates and that the event handler and every sweep share. *)
Record Sys : Type := mkSys {
  watch_dir : gmap string DirEntry;
  state_file : option string;        (* the text of STATE_FILE, if it exists *)
  processed : gset string;
  trace : list event
}.

(** An answer of an HTTP endpoint. *)
Inductive HttpReply : Type :=
| TransportFailure                              (* connection error, timeout *)
| Response (status_code : Z) (body : string).

(** What the surroundings answer during one processing attempt or one
    sweep; the answers that depend on the candidate are keyed by its name. *)
Record World : Type := mkWorld {
  clock : string -> float;                  (* [time.time()] at the age check *)
  now_iso : string;                         (* the rendered UTC time of a save *)
  stt_reply : string -> HttpReply;
  hook_reply : HookRequest -> HttpReply;
  store_fault : option (option string);     (* [Some residue]: the save raises
                                               [OSError], [residue] stays on disk *)
  unlink_fault : string -> bool;            (* the deletion is refused *)
  unreadable : string -> bool               (* [open] is refused *)
}.

(** How a call ends. [Untyped] marks a run that leaves the fragment of
    Python modelled here: the Processed-Set would hold a value that is not
    a string. Nothing catches it. *)
Inductive outcome (A : Type) : Type :=
| Return (a : A)
| Raise (e : exn)
| Untyped.
Arguments Return {A} a.
Arguments Raise {A} e.
Arguments Untyped {A}.

Definition M (A : Type) : Type := Sys -> outcome A * Sys.

Definition ret {A} (a : A) : M A := fun s => (Return a, s).

Definition bind {A B} (m : M A) (k : A -> M B) : M B :=
  fun s =>
    match m s with
    | (Return a, s') => k a s'
    | (Raise e, s') => (Raise e, s')
    | (Untyped, s') => (Untyped, s')
    end.

Definition raise {A} (e : exn) : M A := fun s => (Raise e, s).

(** [try: m  except <catches>: handler] *)
Definition try_except {A} (m : M A) (catches : exn -> bool) (handler : exn -> M A) : M A :=
  fun s =>
    match m s with
    | (Raise e, s') => if catches e then handler e s' else (Raise e, s')
    | r => r
    end.

Declare Scope py_scope.
Delimit Scope py_scope with py.
Notation "x <- m ;; k" := (bind m (fun x => k))
  (at level 100, m at next level, k at level 200, right associativity) : py_scope.
Notation "m ;; k" := (bind m (fun _ => k))
  (at level 100, k at level 200, right associativity) : py_scope.
Local Open Scope py_scope.

Definition gets {A} (f : Sys -> A) : M A := fun s => (Return (f s), s).

Definition emit (e : event) : M unit :=
  fun s => (Return tt, mkSys (watch_dir s) (state_file s) (processed s) (trace s ++ [e])).

Definition log (lvl : level) (fmt : string) : M unit := emit (Log lvl fmt).

Definition set_state_file (c : option string) : M unit :=
  fun s => (Return tt, mkSys (watch_dir s) c (processed s) (trace s)).

Definition set_watch_dir (d : gmap string DirEntry) : M unit :=
  fun s => (Return tt, mkSys d (state_file s) (processed s) (trace s)).

(** [processed.add(filename)] *)
Definition processed_add (filename : string) : M unit :=
  fun s => (Return tt,
            mkSys (watch_dir s) (state_file s) ({[filename]} ∪ processed s) (trace s)).

(** [processed = ...]: binds the shared set. *)
Definition set_processed (p : gset string) : M unit :=
  fun s => (Return tt, mkSys (watch_dir s) (state_file s) p (trace s)).

(** [path.stat()] *)
Definition stat (name : string) : M DirEntry :=
  d <- gets watch_dir ;;
  match d !! name with
  | Some e => ret e
  | None => raise FileNotFoundError
  end.

(** [path.exists()] and [path.is_file()] *)
Definition exists_ (name : string) : M bool :=
  d <- gets watch_dir ;;
  ret (bool_decide (is_Some (d !! name))).

Definition is_file (name : string) : M bool :=
  d <- gets watch_dir ;;
  ret (match d !! name with Some e => negb (is_dir e) | None => false end).

(** [open(path, "rb")] *)
Definition open_rb (w : World) (name : string) : M unit :=
  d <- gets watch_dir ;;
  match d !! name with
  | None => raise FileNotFoundError
  | Some e => if is_dir e || unreadable w name then raise OSError else ret tt
  end.

(** [path.unlink()] *)
Definition unlink (w : World) (name : string) : M unit :=
  emit (Unlink name) ;;
  d <- gets watch_dir ;;
  match d !! name with
  | None => raise FileNotFoundError
  | Some e =>
      if is_dir e || unlink_fault w name then raise OSError
      else set_watch_dir (delete name d)
  end.

(** ** What a crash leaves of the state file

    [Path.write_text] opens the file for writing, which empties it, writes
    the text through a buffer and closes the file. [chunks] are the pieces
    in which the buffer reaches the disk; their concatenation is the text. *)

Module WriteText.

Fixpoint concat_chunks (chunks : list string) : string :=
  match chunks with
  | [] => ""
  | c :: rest => c +:+ concat_chunks rest
  end.

(** The contents of the disk as the pieces arrive, from [written] on. *)
Fixpoint flushes (written : string) (chunks : list string) : list (option string) :=
  match chunks with
  | [] => []
  | c :: rest => Some (written +:+ c) :: flushes (written +:+ c) rest
  end.

(** The successive contents of the file during one call: before the
    call, once opened, and after each piece. A crash leaves one of them. *)
Definition stages (old : option string) (chunks : list string) : list (option string) :=
  old :: Some "" :: flushes "" chunks.

(** What the claim of atomicity allows a crash to leave. *)
Definition old_or_new (old : option string) (text : string) (found : option string) : Prop :=
  found = old \/ found = Some text.

End WriteText.

(** ** A concrete installation

    Settings, worlds and states on which the definitions are run. *)

Module Scenario.

Definition env : gmap string string :=
  <["STT_URL" := "http://stt.local/v1/audio/transcriptions"]>
  (<["OPENCLAW_URL" := "http://openclaw.local/"]>
  (<["OPENCLAW_HOOK_TOKEN" := "secret"]> ∅)).

Definition cfg : Config := config_of_env env 5 5.

(** An audio file last modified at time 90, of 2048 bytes. *)
Definition note : DirEntry := mkEntry false 90 2048.

Definition stt_body : string := JsonText.dumps (JObj [("text", JStr " buy milk ")]).

(** A world at time 100 in which both endpoints accept and nothing
    fails. *)
Definition calm : World :=
  {| clock := fun _ => 100%float;
     now_iso := "2026-01-01T00:00:00+00:00";
     stt_reply := fun _ => Response 200 stt_body;
     hook_reply := fun _ => Response 202 "";
     store_fault := None;
     unlink_fault := fun _ => false;
     unreadable := fun _ => false |}.

(** The same world, the state file being refused for writing. *)
Definition read_only_store (residue : option string) : World :=
  {| clock := clock calm;
     now_iso := now_iso calm;
     stt_reply := stt_reply calm;
     hook_reply := hook_reply calm;
     store_fault := Some residue;
     unlink_fault := unlink_fault calm;
     unreadable := unreadable calm |}.

(** The same world, the webhook answering [status_code]. *)
Definition hook_answers (status_code : Z) : World :=
  {| clock := clock calm;
     now_iso := now_iso calm;
     stt_reply := stt_reply calm;
     hook_reply := fun _ => Response status_code "busy";
     store_fault := None;
     unlink_fault := unlink_fault calm;
     unreadable := unreadable calm |}.

(** The same world, deletions being refused. *)
Definition undeletable : World :=
  {| clock := clock calm;
     now_iso := now_iso calm;
     stt_reply := stt_reply calm;
     hook_reply := hook_reply calm;
     store_fault := None;
     unlink_fault := fun _ => true;
     unreadable := unreadable calm |}.

(** The same world, the STT endpoint answering [body]. *)
Definition stt_answers (body : string) : World :=
  {| clock := clock calm;
     now_iso := now_iso calm;
     stt_reply := fun _ => Response 200 body;
     hook_reply := hook_reply calm;
     store_fault := None;
     unlink_fault := unlink_fault calm;
     unreadable := unreadable calm |}.

(** The same world at time [t]. *)
Definition at_time (t : float) : World :=
  {| clock := fun _ => t;
     now_iso := now_iso calm;
     stt_reply := stt_reply calm;
     hook_reply := hook_reply calm;
     store_fault := None;
     unlink_fault := unlink_fault calm;
     unreadable := unreadable calm |}.

(** The same world, the STT endpoint being out of reach. *)
Definition stt_down : World :=
  {| clock := clock calm;
     now_iso := now_iso calm;
     stt_reply := fun _ => TransportFailure;
     hook_reply := hook_reply calm;
     store_fault := None;
     unlink_fault := unlink_fault calm;
     unreadable := unreadable calm |}.

(** An audio file last modified at time 0.30000000000000004, and the
    directory that holds it under the name [note1.m4a]. *)
Definition early : DirEntry := mkEntry false 0x1.3333333333334p-2 2048.

Definition one_early : Sys :=
  {| watch_dir := {[ "note1.m4a" := early ]};
     state_file := None;
     processed := ∅;
     trace := [] |}.

Definition one_note : Sys :=
  {| watch_dir := {[ "note1.m4a" := note ]};
     state_file := None;
     processed := ∅;
     trace := [] |}.

Definition two_notes : Sys :=
  {| watch_dir := <["a.m4a" := note]> {[ "b.m4a" := note ]};
     state_file := None;
     processed := ∅;
     trace := [] |}.

(** [note1.m4a] still in the directory and already delivered. *)
Definition delivered : Sys :=
  {| watch_dir := {[ "note1.m4a" := note ]};
     state_file := None;
     processed := {[ "note1.m4a" ]};
     trace := [] |}.

(** The settings of [cfg] with the deletion of delivered files turned
    off. *)
Definition keep : Config :=
  config_of_env (<["DELETE_AFTER_TRANSCRIBE" := "no"]> env) 5 5.

(** The settings of [cfg] with one more slash at the end of the address of
    the webhook. *)
Definition slashed : Config :=
  config_of_env (<["OPENCLAW_URL" := "http://openclaw.local//"]> env) 5 5.

(** The service about to start again: [note1.m4a] is still in the
    directory, and the state file holds the document that a save wrote
    with its name. *)
Definition restarted : Sys :=
  {| watch_dir := {[ "note1.m4a" := note ]};
     state_file :=
       Some (JsonText.dumps
               (JObj [("processed", JArr [JStr "note1.m4a"]);
                      ("updated", JStr "2026-01-01T00:00:00+00:00")]));
     processed := ∅;
     trace := [] |}.

Definition with_state_file (text : string) : Sys :=
  {| watch_dir := ∅;
     state_file := Some text;
     processed := ∅;
     trace := [] |}.

End Scenario.


(** ** Vocabulary of the properties *)


(** The effects a claim can be about, log lines apart. *)
Definition is_call (e : event) : bool :=
  match e with Log _ _ => false | _ => true end.

Definition is_stt_post (e : event) : bool :=
  match e with SttPost _ _ _ => true | _ => false end.

Definition is_hook_post (e : event) : bool :=
  match e with HookPost _ => true | _ => false end.

Definition is_store_write (e : event) : bool :=
  match e with WriteState _ => true | _ => false end.

Definition is_unlink (e : event) : bool :=
  match e with Unlink _ => true | _ => false end.

(** [HTTP status in (200, 202)] *)
Definition confirms (r : HttpReply) : bool :=
  match r with
  | Response status_code _ => (status_code =? 200)%Z || (status_code =? 202)%Z
  | TransportFailure => false
  end.

(** The state [s] with [events] appended to its trace. *)
Definition logged (s : Sys) (events : list event) : Sys :=
  mkSys (watch_dir s) (state_file s) (processed s) (trace s ++ events).

(** Events that are neither a delivery, nor a write of the store, nor a
    deletion. *)
Definition harmless (events : list event) : bool :=
  forallb (fun e => negb (is_hook_post e || is_store_write e || is_unlink e)) events.

(** Events among which no delivery is confirmed by [w] and nothing is
    written or deleted. *)
Definition unconfirmed (w : World) (events : list event) : bool :=
  forallb (fun e =>
             match e with
             | HookPost req => negb (confirms (hook_reply w req))
             | WriteState _ | Unlink _ => false
             | _ => true
             end) events.

(** The line that the delivery client logs on the answer [r]. *)
Definition hook_log (r : HttpReply) : event :=
  match r with
  | TransportFailure => Log ERROR "Webhook request failed: %s"
  | Response status_code _ =>
      if (status_code =? 200)%Z || (status_code =? 202)%Z
      then Log INFO "Webhook sent successfully for %s"
      else Log ERROR "Webhook failed (%d): %s"
  end.

(** Whether [path.unlink()] raises: the file is gone, is a directory, or
    the deletion is refused. *)
Definition deletion_refused (w : World) (f : string) (s : Sys) : bool :=
  match watch_dir s !! f with
  | Some e => is_dir e || unlink_fault w f
  | None => true
  end.

(** From [s] to [s'] no name has left the Processed-Set and the trace has
    only been added to. *)
Definition grows (s s' : Sys) : Prop :=
  processed s ⊆ processed s' /\ trace s `prefix_of` trace s'.

(** The file that an event is about, if it is about one. *)
Definition subject (e : event) : option string :=
  match e with
  | SttPost _ _ f => Some f
  | HookPost req => Some (audio_file (metadata req))
  | Unlink f => Some f
  | Log _ _ | WriteState _ | Mkdir _ => None
  end.

(** The events that the trace of [s'] has after those of [s]. *)
Definition fresh (s s' : Sys) : list event :=
  drop (length (trace s)) (trace s').

(** From [s] to [s'] nothing was done about the file [f]: no event names
    it and its entry in the watch directory is as it was. *)
Definition left_alone (f : string) (s s' : Sys) : Prop :=
  Forall (fun e => subject e <> Some f) (fresh s s')
  /\ watch_dir s' !! f = watch_dir s !! f.

(** From [s] to [s'] the watch directory has lost entries only, each one
    the file of a name that was not in the Processed-Set and now is. *)
Definition kept (s s' : Sys) : Prop :=
  watch_dir s' ⊆ watch_dir s
  /\ forall g, is_Some (watch_dir s !! g) -> watch_dir s' !! g = None ->
               g ∈ processed s' /\ g ∉ processed s.

(** From [s] to [s'] nothing was deleted or asked to be. *)
Definition no_deletion (s s' : Sys) : Prop :=
  watch_dir s' = watch_dir s
  /\ Forall (fun e => is_unlink e = false) (fresh s s').

(** The names of the files uploaded to the STT endpoint, in order. *)
Definition uploads (events : list event) : list string :=
  omap (fun e => match e with SttPost _ _ f => Some f | _ => None end) events.

(** ** The service *)

(** The transcript that [transcribe] returns: its [dict] of two keys.
    [tr_duration] is [JNull] where Python has [None]. *)
Record Transcript : Type := mkTranscript {
  tr_text : string;
  tr_duration : json
}.

Section Service.

(** The settings, and the two functions of Python's [json] module that
    the service calls; [json_loads] answers [None] where [json.loads]
    raises [JSONDecodeError]. *)
Variable cfg : Config.
Variable json_loads : string -> option json.
Variable json_dumps : json -> string.

(** *** State management *)

(** [data.get(key, default)], for whatever [json.loads] returned. *)
Definition data_get (data : json) (key : string) (default : json) : M json :=
  match data with
  | JObj fields => ret (Json.get key default fields)
  | _ => raise AttributeError
  end.

(** The characters of a string, each as a string of length one. *)
Fixpoint chars (s : string) : list string :=
  match s with
  | EmptyString => []
  | String c s' => String c EmptyString :: chars s'
  end.

(** [set(v)]: the elements of a list, the characters of a string, the
    keys of a dict; anything else cannot be iterated, and a list or a dict
    cannot be a member. *)
Definition py_set (v : json) : M (gset string) :=
  match v with
  | JArr items =>
      if forallb Json.hashable items then
        if forallb Json.is_str items
        then ret (list_to_set (omap Json.str_of items))
        else fun s => (Untyped, s)
      else raise TypeError
  | JStr s => ret (list_to_set (chars s))
  | JObj fields => ret (list_to_set (map fst fields))
  | JNull | JBool _ | JInt _ | JFloat _ => raise TypeError
  end.

(** Lines 50-58. [state_file] holds the text that [read_text] returns; a
    state file that exists and cannot be read is outside the model. *)
Definition load_state : M (gset string) :=
  f <- gets state_file ;;
  match f with
  | Some text =>
      try_except
        (match json_loads text with
         | None => raise JSONDecodeError
         | Some data =>
             v <- data_get data "processed" (JArr []) ;;
             py_set v
         end)
        (fun e => match e with JSONDecodeError | KeyError => true | _ => false end)
        (fun _ => ret ∅)
  | None => ret ∅
  end.

(** The document that [save_state] serialises. *)
Definition state_document (processed : gset string) (updated : string) : json :=
  JObj [("processed", JArr (map JStr (Py.sorted (elements processed))));
        ("updated", JStr updated)].

(** Lines 61-67. The directory of the state file is taken to exist, so
    that [mkdir(parents=True, exist_ok=True)] does nothing. *)
Definition save_state (w : World) (processed : gset string) : M unit :=
  let text := json_dumps (state_document processed (now_iso w)) in
  emit (WriteState text) ;;
  match store_fault w with
  | Some residue => set_state_file residue ;; raise OSError
  | None => set_state_file (Some text)
  end.

(** *** Speech to text *)

(** [resp.raise_for_status()] *)
Definition raise_for_status (status_code : Z) : M unit :=
  if ((400 <=? status_code) && (status_code <? 600))%Z then raise RequestException
  else ret tt.

(** [resp.json()] *)
Definition resp_json (body : string) : M json :=
  match json_loads body with
  | Some data => ret data
  | None => raise JSONDecodeError
  end.

(** [v.strip()], for whatever value [v] is. *)
Definition value_strip (v : json) : M string :=
  match v with
  | JStr s => ret (Py.strip s)
  | _ => raise AttributeError
  end.

(** Lines 72-100. *)
Definition transcribe (w : World) (audio_path : string) : M (option Transcript) :=
  try_except
    (open_rb w audio_path ;;
     emit (SttPost (STT_URL cfg) (STT_MODEL cfg) audio_path) ;;
     match stt_reply w audio_path with
     | TransportFailure => raise RequestException
     | Response status_code body =>
         raise_for_status status_code ;;
         data <- resp_json body ;;
         t <- data_get data "text" (JStr "") ;;
         text <- value_strip t ;;
         if String.eqb text "" then
           log WARNING "Empty transcript for %s" ;;
           ret None
         else
           d <- data_get data "duration" JNull ;;
           ret (Some {| tr_text := text; tr_duration := d |})
     end)
    (fun e => match e with RequestException | JSONDecodeError => true | _ => false end)
    (fun e =>
       match e with
       | RequestException => log ERROR "STT request failed for %s: %s" ;; ret None
       | _ => log ERROR "STT response parse error for %s: %s" ;; ret None
       end).

(** *** Webhook *)

(** Lines 107-139: the address and the payload of the request. The message
    is a fixed text around the transcript and the metadata; the request
    records those. *)
Definition hook_request (transcript : string) (metadata : Metadata) : HookRequest :=
  {| webhook_url := Py.rstrip_slash (OPENCLAW_URL cfg) +:+ OPENCLAW_HOOK_PATH cfg;
     bearer := OPENCLAW_HOOK_TOKEN cfg;
     sessionKey := "hook:voice:" +:+ audio_file metadata;
     transcript := transcript;
     metadata := metadata |}.

(** Lines 105-159. *)
Definition send_to_openclaw (w : World) (transcript : string) (metadata : Metadata) : M bool :=
  let req := hook_request transcript metadata in
  try_except
    (emit (HookPost req) ;;
     match hook_reply w req with
     | TransportFailure => raise RequestException
     | Response status_code body =>
         if (status_code =? 200)%Z || (status_code =? 202)%Z then
           log INFO "Webhook sent successfully for %s" ;;
           ret true
         else
           log ERROR "Webhook failed (%d): %s" ;;
           ret false
     end)
    (fun e => match e with RequestException => true | _ => false end)
    (fun _ => log ERROR "Webhook request failed: %s" ;; ret false).

(** *** Processing *)

(** Lines 164-216. The rendering of the modification time (line 189) is
    taken to succeed. *)
Definition process_file (w : World) (audio_path : string) : M bool :=
  let filename := audio_path in
  members <- gets processed ;;
  if bool_decide (filename ∈ members) then ret false else
  st <- stat audio_path ;;
  let file_age := (clock w filename - st_mtime st)%float in
  if Py.float_lt_int file_age (MIN_FILE_AGE cfg) then
    log DEBUG "Skipping %s (too new, age=%.1fs)" ;;
    ret false
  else
  _ <- stat audio_path ;;
  log INFO "Processing: %s (%.1f KB)" ;;
  result <- transcribe w audio_path ;;
  match result with
  | None =>
      log ERROR "Transcription failed for %s — skipping" ;;
      ret false
  | Some result =>
      log INFO "Transcript: %s" ;;
      st <- stat audio_path ;;
      let metadata :=
        {| audio_file := filename;
           recorded_at := st_mtime st;
           duration := if Json.truthy (tr_duration result)
                       then Some (tr_duration result) else None;
           file_size := st_size st |} in
      success <- send_to_openclaw w (tr_text result) metadata ;;
      if success then
        processed_add filename ;;
        members <- gets processed ;;
        save_state w members ;;
        (if DELETE_AFTER cfg then
           try_except
             (unlink w audio_path ;; log INFO "Deleted: %s")
             is_OSError
             (fun _ => log WARNING "Failed to delete %s: %s")
         else ret tt) ;;
        ret true
      else
        log ERROR "Webhook delivery failed for %s — will retry next cycle" ;;
        ret false
  end.

(** *** File watcher *)

(** [path.suffix.lower() in AUDIO_EXTENSIONS] *)
Definition is_audio (path : string) : bool :=
  existsb (String.eqb (Py.lower (Py.suffix path))) AUDIO_EXTENSIONS.

(** Lines 228-236. The sleep shows in the clock of [w]; [MIN_FILE_AGE] is
    taken not to be negative, so that [time.sleep] returns. *)
Definition on_created (w : World) (is_directory : bool) (src_path : string) : M unit :=
  if is_directory then ret tt else
  if is_audio src_path then
    e <- exists_ src_path ;;
    if e then process_file w src_path ;; ret tt else ret tt
  else ret tt.

(** Lines 238-246, under the same reading of the sleep. *)
Definition on_moved (w : World) (is_directory : bool) (dest_path : string) : M unit :=
  if is_directory then ret tt else
  if is_audio dest_path then
    e <- exists_ dest_path ;;
    if e then process_file w dest_path ;; ret tt else ret tt
  else ret tt.

(** *** Main *)

(** The loop of lines 254-257 over the sorted listing. *)
Fixpoint sweep (w : World) (paths : list string) (count : Z) : M Z :=
  match paths with
  | [] => ret count
  | path :: rest =>
      f <- is_file path ;;
      if f && is_audio path then
        ok <- process_file w path ;;
        sweep w rest (if ok : bool then count + 1 else count)
      else sweep w rest count
  end.

(** Lines 251-259. *)
Definition process_existing (w : World) : M unit :=
  d <- gets watch_dir ;;
  count <- sweep w (Py.sorted (elements (dom d))) 0 ;;
  if (count =? 0)%Z then ret tt
  else log INFO "Processed %d existing file(s)".

(** Lines 263-272. *)
Definition validate_config : M unit :=
  (if String.eqb (STT_URL cfg) "" then
     log ERROR "STT_URL is required" ;; raise (SystemExit 1)
   else ret tt) ;;
  (if String.eqb (OPENCLAW_URL cfg) "" then
     log ERROR "OPENCLAW_URL is required" ;; raise (SystemExit 1)
   else ret tt) ;;
  (if String.eqb (OPENCLAW_HOOK_TOKEN cfg) "" then
     log ERROR "OPENCLAW_HOOK_TOKEN is required" ;; raise (SystemExit 1)
   else ret tt).

(** Lines 262-303: [main] up to the start of the observer. The watch
    directory is taken to exist. *)
Definition startup (w : World) : M unit :=
  validate_config ;;
  log INFO "Voice Ingest starting" ;;
  log INFO "  Watch dir: %s" ;;
  log INFO "  STT: %s (model: %s)" ;;
  log INFO "  OpenClaw: %s%s" ;;
  log INFO "  Delete after transcribe: %s" ;;
  p <- load_state ;;
  set_processed p ;;
  log INFO "  Previously processed: %d files" ;;
  process_existing w ;;
  log INFO "Using inotify file watcher" ;;
  log INFO "Using polling observer (interval: %ds) — required for CephFS/NFS".

(** Lines 316-320: one round of the loop per world of [rounds]; the loop
    itself has no exit but an exception. [POLL_INTERVAL] is taken not to
    be negative, so that [time.sleep] returns. *)
Fixpoint main_loop (rounds : list World) : M unit :=
  match rounds with
  | [] => ret tt
  | w :: rest => process_existing w ;; main_loop rest
  end.

Definition main (w : World) (rounds : list World) : M unit :=
  startup w ;;
  log INFO "Watching for audio files... (Ctrl+C to stop)" ;;
  main_loop rounds.

(** The required settings that are empty, in the order in which [main]
    checks them. *)
Definition missing_settings : list string :=
  (if String.eqb (STT_URL cfg) "" then ["STT_URL"] else [])
  ++ (if String.eqb (OPENCLAW_URL cfg) "" then ["OPENCLAW_URL"] else [])
  ++ (if String.eqb (OPENCLAW_HOOK_TOKEN cfg) "" then ["OPENCLAW_HOOK_TOKEN"] else []).

(** The upload that [transcribe] makes of a file it can open. *)
Definition upload (w : World) (f : string) (s : Sys) : list event :=
  match watch_dir s !! f with
  | Some e =>
      if is_dir e || unreadable w f then []
      else [SttPost (STT_URL cfg) (STT_MODEL cfg) f]
  | None => []
  end.

(** What [process_file] leaves in the trace up to its call of the
    transcription client, that call included. *)
Definition opening (w : World) (f : string) (s : Sys) : list event :=
  if bool_decide (f ∈ processed s) then []
  else
    match watch_dir s !! f with
    | None => []
    | Some e =>
        if Py.float_lt_int (clock w f - st_mtime e) (MIN_FILE_AGE cfg)
        then [Log DEBUG "Skipping %s (too new, age=%.1fs)"]
        else Log INFO "Processing: %s (%.1f KB)" :: upload w f s
    end.

(** Lines 188-195 on their own: the metadata that [process_file] builds
    for the transcript [result] of the file [filename] with the status
    [st]. *)
Definition metadata_of (filename : string) (st : DirEntry) (result : Transcript)
    : Metadata :=
  {| audio_file := filename;
     recorded_at := st_mtime st;
     duration := if Json.truthy (tr_duration result)
                 then Some (tr_duration result) else None;
     file_size := st_size st |}.

(** Lines 201-213 on their own: the branch that [process_file] takes on a
    confirmed delivery, named so that properties can speak of it. *)
Definition on_success (w : World) (filename : string) : M bool :=
  processed_add filename ;;
  members <- gets processed ;;
  save_state w members ;;
  (if DELETE_AFTER cfg then
     try_except
       (unlink w filename ;; log INFO "Deleted: %s")
       is_OSError
       (fun _ => log WARNING "Failed to delete %s: %s")
   else ret tt) ;;
  ret true.

(** ** Properties *)

Lemma logged_nil s : logged s [] = s.
Proof. destruct s; unfold logged; simpl. by rewrite app_nil_r. Qed.

Lemma logged_logged s a b : logged (logged s a) b = logged s (a ++ b).
Proof. unfold logged; simpl. by rewrite app_assoc. Qed.

Lemma emit_logged e s : emit e s = (Return tt, logged s [e]).
Proof. reflexivity. Qed.

Lemma log_logged lvl fmt s : log lvl fmt s = (Return tt, logged s [Log lvl fmt]).
Proof. reflexivity. Qed.

(** *** How the two clients run *)

Ltac normalise_logged :=
  unfold logged; cbn [watch_dir state_file processed trace];
  repeat first [rewrite <- app_assoc | progress cbn [app]].

Lemma sys_eta s : mkSys (watch_dir s) (state_file s) (processed s) (trace s) = s.
Proof. by destruct s. Qed.

Ltac settle_run :=
  normalise_logged; rewrite ?app_nil_r, ?sys_eta;
  repeat split; try done; try discriminate.

(** Runs the monadic steps whose outcome is known. *)
Ltac exec :=
  cbv beta iota zeta delta
    [bind ret raise gets emit log try_except set_state_file set_watch_dir
     processed_add set_processed stat exists_ is_file open_rb
     raise_for_status resp_json data_get value_strip logged];
  cbn [watch_dir state_file processed trace].

(** The delivery client always returns, and returns [True] exactly on a
    status 200 or 202; it touches nothing but the trace. *)
Lemma send_to_openclaw_run (w : World) (t : string) (md : Metadata) (s : Sys) :
  send_to_openclaw w t md s
  = (Return (confirms (hook_reply w (hook_request t md))),
     logged s [HookPost (hook_request t md);
               hook_log (hook_reply w (hook_request t md))]).
Proof.
  unfold send_to_openclaw, confirms, hook_log. exec.
  destruct (hook_reply w (hook_request t md)) as [|code body]; exec.
  - by settle_run.
  - destruct ((code =? 200)%Z || (code =? 202)%Z); exec; by settle_run.
Qed.

Lemma hook_log_confirmed r :
  confirms r = true -> hook_log r = Log INFO "Webhook sent successfully for %s".
Proof. destruct r; [done|]. simpl. by intros ->. Qed.

(** The transcription client touches nothing but the trace, where it
    leaves its upload, if it can open the file, and log lines. *)
Lemma transcribe_run (w : World) (f : string) (s : Sys) :
  exists r lines,
    transcribe w f s = (r, logged s (upload w f s ++ lines))
    /\ harmless lines = true
    /\ r <> Untyped.
Proof.
  unfold transcribe, upload. exec.
  destruct (watch_dir s !! f) as [e|]; exec.
  2: { exists (Raise FileNotFoundError), []. by settle_run. }
  destruct (is_dir e || unreadable w f); exec.
  { exists (Raise OSError), []. by settle_run. }
  destruct (stt_reply w f) as [|code body]; exec.
  { eexists _, [_]. by settle_run. }
  destruct ((400 <=? code)%Z && (code <? 600)%Z); exec.
  { eexists _, [_]. by settle_run. }
  destruct (json_loads body) as [data|]; exec.
  2: { eexists _, [_]. by settle_run. }
  destruct data; exec; try (eexists _, []; by settle_run).
  destruct (Json.get "text" (JStr "") fields); exec;
    try (eexists _, []; by settle_run).
  destruct (String.eqb (Py.strip s0) ""); exec.
  - eexists _, [_]. by settle_run.
  - eexists _, []. by settle_run.
Qed.

(** *** Idempotence *)

Lemma process_file_member w f s :
  f ∈ processed s -> process_file w f s = (Return false, s).
Proof.
  intros Hin. unfold process_file, bind, gets.
  by rewrite bool_decide_eq_true_2.
Qed.

(** C1. A file name already in the Processed-Set is ignored: presented
    again to [process_file], directly, by a created or moved event or by a
    sweep, it makes [process_file] answer [False] and leaves the whole state
    as it was, trace included: no transcription call, no delivery call, no
    write of the store, no deletion. *)
Theorem processed_file_is_ignored (w : World) (f : string) (s : Sys) :
  f ∈ processed s ->
  process_file w f s = (Return false, s)
  /\ on_created w false f s = (Return tt, s)
  /\ on_moved w false f s = (Return tt, s)
  /\ (forall count, sweep w [f] count s = (Return count, s)).
Proof.
  intros Hin.
  pose proof (process_file_member w f s Hin) as Hpf.
  repeat split.
  - exact Hpf.
  - unfold on_created. destruct (is_audio f); [|done].
    exec. case_bool_decide; [|done]. by rewrite Hpf.
  - unfold on_moved. destruct (is_audio f); [|done].
    exec. case_bool_decide; [|done]. by rewrite Hpf.
  - intros count. unfold sweep. exec.
    destruct (watch_dir s !! f) as [e|]; [|done].
    destruct (negb (is_dir e) && is_audio f); [|done].
    by rewrite Hpf.
Qed.

(** *** One processing attempt *)

Lemma harmless_unconfirmed w events :
  harmless events = true -> unconfirmed w events = true.
Proof.
  unfold harmless, unconfirmed. rewrite !forallb_forall.
  intros H e He. specialize (H e He). by destruct e.
Qed.

Lemma unconfirmed_log w lvl fmt rest :
  unconfirmed w (Log lvl fmt :: rest) = unconfirmed w rest.
Proof. reflexivity. Qed.

Lemma hook_log_is_log r : exists lvl fmt, hook_log r = Log lvl fmt.
Proof.
  destruct r as [|code body]; simpl; [by eauto|].
  destruct ((code =? 200)%Z || (code =? 202)%Z); by eauto.
Qed.

Lemma unconfirmed_app w a b :
  unconfirmed w (a ++ b) = unconfirmed w a && unconfirmed w b.
Proof. apply forallb_app. Qed.

Lemma harmless_upload w f s : harmless (upload w f s) = true.
Proof.
  unfold upload. destruct (watch_dir s !! f) as [e|]; [|done].
  by destruct (is_dir e || unreadable w f).
Qed.

Lemma harmless_log lvl fmt rest : harmless (Log lvl fmt :: rest) = harmless rest.
Proof. reflexivity. Qed.

Lemma harmless_app a b : harmless (a ++ b) = harmless a && harmless b.
Proof. apply forallb_app. Qed.

(** An attempt either leaves everything but the trace as it was, without
    a confirmed delivery and without answering [True], or reaches the
    branch of a confirmed delivery. Either way its trace starts with
    [opening]. *)
Lemma process_file_run (w : World) (f : string) (s : Sys) :
  (exists r rest,
      process_file w f s = (r, logged s (opening w f s ++ rest))
      /\ unconfirmed w (opening w f s ++ rest) = true
      /\ r <> Return true)
  \/ (exists rest req,
        process_file w f s
        = on_success w f
            (logged s ((opening w f s ++ rest)
                       ++ [HookPost req;
                           Log INFO "Webhook sent successfully for %s"]))
        /\ harmless (opening w f s ++ rest) = true
        /\ confirms (hook_reply w req) = true
        /\ audio_file (metadata req) = f
        /\ f ∉ processed s).
Proof.
  unfold process_file, opening. exec.
  case_bool_decide as Hmem.
  { left. exists (Return false), []. by settle_run. }
  destruct (watch_dir s !! f) as [e|] eqn:He.
  2: { left. exists (Raise FileNotFoundError), []. by settle_run. }
  destruct (Py.float_lt_int _ _).
  { left. eexists _, []. by settle_run. }
  rewrite He. exec.
  match goal with
  | |- context [transcribe w f ?st] =>
      destruct (transcribe_run w f st) as (r1 & ev & Ht & Hev & Hr1); rewrite Ht
  end.
  assert (upload w f (mkSys (watch_dir s) (state_file s) (processed s)
                        (trace s ++ [Log INFO "Processing: %s (%.1f KB)"]))
          = upload w f s) as -> by done.
  clear Ht.
  pose proof (harmless_upload w f s) as Hup.
  destruct r1 as [[tr|]|err|]; [| | |done]; exec.
  - rewrite He.
    match goal with
    | |- context [send_to_openclaw w ?t ?md ?st] =>
        rewrite (send_to_openclaw_run w t md st);
        set (request := hook_request t md) in *
    end.
    destruct (confirms (hook_reply w request)) eqn:Hc.
    + right. exists (ev ++ [Log INFO "Transcript: %s"]), request.
      rewrite (hook_log_confirmed _ Hc).
      split; [|split; [|split; [|done]]].
      * unfold on_success. exec. normalise_logged. reflexivity.
      * cbn [app]. by rewrite harmless_log, !harmless_app, Hup, Hev.
      * done.
    + left. eexists (Return false), (ev ++ [_; _; _; _]).
      split; [by normalise_logged|]. split; [|done].
      destruct (hook_log_is_log (hook_reply w request)) as (lvl & fmt & ->).
      cbn [app].
      rewrite unconfirmed_log, !unconfirmed_app,
        !harmless_unconfirmed by done.
      cbn. by rewrite Hc.
  - left. eexists (Return false), (ev ++ [_]).
    split; [by normalise_logged|]. split; [|done]. cbn [app].
    by rewrite unconfirmed_log, !unconfirmed_app, !harmless_unconfirmed.
  - left. eexists (Raise err), ev.
    split; [by normalise_logged|]. split; [|done]. cbn [app].
    by rewrite unconfirmed_log, !unconfirmed_app, !harmless_unconfirmed.
Qed.


(** What the branch of a confirmed delivery does: the name is added, the
    store is written with the name in it, and only then is the file
    deleted; a refused deletion changes neither the set nor the store. *)
Lemma on_success_run (w : World) (f : string) (s : Sys) :
  let members := {[f]} ∪ processed s in
  let text := json_dumps (state_document members (now_iso w)) in
  on_success w f s =
  match store_fault w with
  | Some residue =>
      (Raise OSError,
       mkSys (watch_dir s) residue members (trace s ++ [WriteState text]))
  | None =>
      if DELETE_AFTER cfg then
        if deletion_refused w f s then
          (Return true,
           mkSys (watch_dir s) (Some text) members
             (trace s ++ [WriteState text; Unlink f;
                          Log WARNING "Failed to delete %s: %s"]))
        else
          (Return true,
           mkSys (delete f (watch_dir s)) (Some text) members
             (trace s ++ [WriteState text; Unlink f; Log INFO "Deleted: %s"]))
      else
        (Return true,
         mkSys (watch_dir s) (Some text) members (trace s ++ [WriteState text]))
  end.
Proof.
  intros members text. unfold on_success, save_state, unlink, deletion_refused.
  exec. fold members. fold text.
  destruct (store_fault w) as [residue|]; exec; [done|].
  destruct (DELETE_AFTER cfg); exec; [|done].
  destruct (watch_dir s !! f) as [e|]; exec.
  - destruct (is_dir e || unlink_fault w f); exec; by normalise_logged.
  - by normalise_logged.
Qed.

(** The state that an attempt reaches on a confirmed delivery. *)
Lemma on_success_facts (w : World) (f : string) (s : Sys) r s' :
  on_success w f s = (r, s') ->
  let text := json_dumps (state_document ({[f]} ∪ processed s) (now_iso w)) in
  processed s' = {[f]} ∪ processed s
  /\ (exists tail,
        trace s' = trace s ++ WriteState text :: tail
        /\ (tail = [] \/ exists line, tail = [Unlink f; line])
        /\ (tail = [] -> watch_dir s' = watch_dir s))
  /\ (r = Return true /\ state_file s' = Some text
      \/ r = Raise OSError /\ store_fault w = Some (state_file s')
         /\ watch_dir s' = watch_dir s).
Proof.
  rewrite on_success_run. cbv zeta.
  destruct (store_fault w) as [residue|].
  { intros [= <- <-]; cbn. split; [done|]. split; [|by right].
    exists []. by eauto. }
  destruct (DELETE_AFTER cfg).
  - destruct (deletion_refused w f s); intros [= <- <-]; cbn;
      (split; [done|]); (split; [|by left]);
      eexists [_; _]; (split; [done|]); (split; [by eauto|done]).
  - intros [= <- <-]; cbn. split; [done|]. split; [|by left].
    exists []. by eauto.
Qed.

#[local] Instance grows_preorder : PreOrder grows.
Proof.
  split.
  - intros s. by split.
  - intros a b c [H1 H2] [H3 H4]. split; by etrans.
Qed.

Lemma grows_logged s events : grows s (logged s events).
Proof. split; [done|]. by apply prefix_app_r. Qed.

(** An attempt never takes a name out of the Processed-Set and only adds
    to the trace. *)
Lemma process_file_grows (w : World) (f : string) (s : Sys) :
  grows s (process_file w f s).2.
Proof.
  destruct (process_file_run w f s)
    as [(r & ev & -> & _ & _)|(rest & req & -> & _ & _ & _ & _)].
  - apply grows_logged.
  - destruct (on_success w f _) as [r s'] eqn:Hrun.
    pose proof (on_success_facts _ _ _ _ _ Hrun) as (Hp & (tail & Ht & _) & _).
    cbn [snd logged processed trace] in *. split.
    + rewrite Hp. apply union_subseteq_r.
    + rewrite Ht, <- app_assoc. by apply prefix_app_r.
Qed.

(** Every attempt leaves [opening] in the trace, and more after it. *)
Lemma process_file_trace (w : World) (f : string) (s : Sys) :
  exists rest, trace (process_file w f s).2 = trace s ++ opening w f s ++ rest.
Proof.
  destruct (process_file_run w f s)
    as [(r & rest & -> & _ & _)|(rest & req & -> & _ & _ & _ & _)].
  - by exists rest.
  - destruct (on_success w f _) as [r s'] eqn:Hrun.
    destruct (on_success_facts _ _ _ _ _ Hrun) as (_ & (tail & Ht & _) & _).
    cbn [snd]. rewrite Ht. cbn [logged trace].
    eexists. rewrite <- !app_assoc. reflexivity.
Qed.

Lemma Qltb_lt x y : Py.Qltb x y = true <-> (x < y)%Q.
Proof.
  unfold Py.Qltb. rewrite negb_true_iff, <- not_true_iff_false, Qle_bool_iff.
  split; [apply Qnot_le_lt | apply Qlt_not_le].
Qed.

(** On a finite float the comparison with an int is that of its value. *)
Lemma float_lt_int_value (x : float) (n : Z) (q : Q) :
  Py.float_value x = Some q ->
  Py.float_lt_int x n = true <-> (q < inject_Z n)%Q.
Proof.
  intros H. unfold Py.float_lt_int. rewrite H. apply Qltb_lt.
Qed.

(** *** Age gate *)

(** C5. The age of a candidate is the difference that line 172 computes,
    in binary64, between the clock and the modification time, and it is
    compared with [MIN_FILE_AGE] by value. A candidate whose age is below
    [MIN_FILE_AGE] is skipped: the attempt answers [False] and leaves one
    debug line in the trace, so that the transcription client is not
    called and nothing else changes. A candidate of that age or older, a
    regular file that can be opened, passes the check: the attempt uploads
    it to the STT endpoint. *)
Theorem age_gate (w : World) (f : string) (s : Sys) (e : DirEntry) :
  f ∉ processed s ->
  watch_dir s !! f = Some e ->
  let file_age := (clock w f - st_mtime e)%float in
  (forall age,
      Py.float_value file_age = Some age ->
      Py.float_lt_int file_age (MIN_FILE_AGE cfg) = true
      <-> (age < inject_Z (MIN_FILE_AGE cfg))%Q)
  /\ (Py.float_lt_int file_age (MIN_FILE_AGE cfg) = true ->
      process_file w f s
      = (Return false, logged s [Log DEBUG "Skipping %s (too new, age=%.1fs)"]))
  /\ (Py.float_lt_int file_age (MIN_FILE_AGE cfg) = false ->
      is_dir e = false -> unreadable w f = false ->
      exists rest,
        trace (process_file w f s).2
        = trace s ++ Log INFO "Processing: %s (%.1f KB)"
                  :: SttPost (STT_URL cfg) (STT_MODEL cfg) f :: rest).
Proof.
  intros Hnew He file_age. split; [|split].
  - intros age Hage. by apply float_lt_int_value.
  - intros Hage. unfold process_file. exec.
    rewrite bool_decide_eq_false_2 by done. rewrite He.
    fold file_age. rewrite Hage. by exec.
  - intros Hage Hfile Hopen.
    destruct (process_file_trace w f s) as (rest & ->).
    unfold opening, upload.
    rewrite bool_decide_eq_false_2 by done. rewrite He.
    fold file_age. rewrite Hage, Hfile, Hopen.
    by exists rest.
Qed.

(** *** Delivery *)

Lemma confirms_spec r :
  confirms r = true
  <-> exists body, r = Response 200 body \/ r = Response 202 body.
Proof.
  destruct r as [|code body]; simpl.
  - split; [done|]. by intros (b & [|]).
  - rewrite orb_true_iff, !Z.eqb_eq. split.
    + intros [-> | ->]; exists body; by eauto.
    + intros (b & [[= -> _] | [= -> _]]); by eauto.
Qed.

(** C6. The delivery client answers [True] exactly when the status is 200
    or 202, and [False] on any other status and on a transport failure.
    When the webhook confirms no delivery of [f], an attempt on [f] does
    not answer [True] and changes nothing but the trace, where it leaves
    neither a write of the store nor a deletion: the Processed-Set, the
    state file and the watch directory are as before, and the next
    attempt starts as this one did, transcription included. *)
Theorem failed_delivery_is_retried (w : World) (f : string) (s : Sys) :
  (forall t md st,
      (send_to_openclaw w t md st).1
      = Return (confirms (hook_reply w (hook_request t md)))
      /\ (confirms (hook_reply w (hook_request t md)) = true
          <-> exists body,
              hook_reply w (hook_request t md) = Response 200 body
              \/ hook_reply w (hook_request t md) = Response 202 body))
  /\ ((forall req, audio_file (metadata req) = f ->
                   confirms (hook_reply w req) = false) ->
      exists r events,
        process_file w f s = (r, logged s events)
        /\ r <> Return true
        /\ forallb (fun e => negb (is_store_write e || is_unlink e)) events = true
        /\ (f ∉ processed s -> f ∉ processed (logged s events))
        /\ watch_dir (logged s events) !! f = watch_dir s !! f
        /\ forall w', exists rest,
            trace (process_file w' f (logged s events)).2
            = trace (logged s events) ++ opening w' f s ++ rest).
Proof.
  split.
  - intros t md st. rewrite send_to_openclaw_run. split; [done|].
    apply confirms_spec.
  - intros Hfail.
    destruct (process_file_run w f s)
      as [(r & rest & Hrun & Hun & Hr)|(rest & req & _ & _ & Hc & Hf & _)].
    2: { by rewrite (Hfail req Hf) in Hc. }
    exists r, (opening w f s ++ rest). split; [done|]. split; [done|].
    split; [|split; [done|split; [done|]]].
    + revert Hun. unfold unconfirmed. rewrite !forallb_forall.
      intros H e He. specialize (H e He). by destruct e.
    + intros w'.
      destruct (process_file_trace w' f (logged s (opening w f s ++ rest)))
        as (rest' & ->).
      by exists rest'.
Qed.

(** *** The Processed-Set *)

Lemma sweep_grows (w : World) (paths : list string) :
  forall count s, grows s (sweep w paths count s).2.
Proof.
  induction paths as [|path rest IH]; intros count s; [done|].
  cbn [sweep]. exec.
  destruct (match watch_dir s !! path with
            | Some e => negb (is_dir e)
            | None => false
            end && is_audio path); [|by apply IH].
  pose proof (process_file_grows w path s) as Hsub.
  destruct (process_file w path s) as [[ok| |] s1]; cbn [snd] in *; [|done..].
  etrans; [exact Hsub|]. apply IH.
Qed.

Lemma process_existing_grows (w : World) (s : Sys) :
  grows s (process_existing w s).2.
Proof.
  unfold process_existing. exec.
  pose proof (sweep_grows w (Py.sorted (elements (dom (watch_dir s)))) 0 s) as H.
  destruct (sweep w _ 0 s) as [[count| |] s1]; cbn [snd] in *; [|done..].
  destruct (count =? 0)%Z; [done|].
  etrans; [exact H|]. apply (grows_logged s1).
Qed.

Lemma main_loop_grows (rounds : list World) :
  forall s, grows s (main_loop rounds s).2.
Proof.
  induction rounds as [|w rest IH]; intros s; [done|].
  cbn [main_loop]. exec.
  pose proof (process_existing_grows w s) as H.
  destruct (process_existing w s) as [[[]| |] s1]; cbn [snd] in *; [|done..].
  etrans; [exact H|]. apply IH.
Qed.

Lemma on_created_grows (w : World) (d : bool) (f : string) (s : Sys) :
  grows s (on_created w d f s).2 /\ grows s (on_moved w d f s).2.
Proof.
  pose proof (process_file_grows w f s) as Hsub.
  unfold on_created, on_moved.
  split; (destruct d; [done|]); (destruct (is_audio f); [|done]); exec;
    (case_bool_decide; [|done]);
    by destruct (process_file w f s) as [[ok| |] s1].
Qed.

(** C7. No operation takes a name out of the Processed-Set. A name that an
    attempt adds is the name of its candidate, and it is added after a
    delivery that the webhook confirmed; the store is then written with
    the name in it, and only after that is the file deleted, if at all.
    An attempt that answers [True] has added the name and written the
    store, and a refused deletion leaves both as they are. *)
Theorem processed_set_discipline (w : World) (f : string) (s : Sys) :
  let r := (process_file w f s).1 in
  let s' := (process_file w f s).2 in
  let text := json_dumps (state_document ({[f]} ∪ processed s) (now_iso w)) in
  (processed s ⊆ processed s'
   /\ processed s ⊆ processed (on_created w false f s).2
   /\ processed s ⊆ processed (on_moved w false f s).2
   /\ processed s ⊆ processed (process_existing w s).2
   /\ forall rounds, processed s ⊆ processed (main_loop rounds s).2)
  /\ (forall g, g ∈ processed s' -> g ∉ processed s ->
        g = f
        /\ exists pre req tail,
            trace s'
            = trace s ++ pre
                ++ [HookPost req; Log INFO "Webhook sent successfully for %s";
                    WriteState text] ++ tail
            /\ harmless pre = true
            /\ confirms (hook_reply w req) = true
            /\ audio_file (metadata req) = f
            /\ (tail = [] \/ exists line, tail = [Unlink f; line])
            /\ (store_fault w = None ->
                r = Return true /\ state_file s' = Some text))
  /\ (r = Return true -> f ∈ processed s' /\ state_file s' = Some text)
  /\ (forall st,
        store_fault w = None -> DELETE_AFTER cfg = true ->
        deletion_refused w f st = true ->
        let text' := json_dumps (state_document ({[f]} ∪ processed st) (now_iso w)) in
        on_success w f st
        = (Return true,
           mkSys (watch_dir st) (Some text') ({[f]} ∪ processed st)
             (trace st ++ [WriteState text'; Unlink f;
                           Log WARNING "Failed to delete %s: %s"]))).
Proof.
  intros r s' text. split; [|split; [|split]].
  - split; [apply process_file_grows|].
    split; [apply on_created_grows|]. split; [apply on_created_grows|].
    split; [apply process_existing_grows|]. intros; apply main_loop_grows.
  - intros g Hg Hnew. subst r s'.
    destruct (process_file_run w f s)
      as [(r & rest & Hrun & _ & _)|(rest & req & Hrun & Hpre & Hc & Hf & _)];
      rewrite Hrun in *.
    { by cbn in Hg. }
    destruct (on_success w f _) as [r s'] eqn:Hs.
    destruct (on_success_facts _ _ _ _ _ Hs) as (Hp & (tail & Ht & Htail & _) & Hr).
    cbn [fst snd logged processed trace] in *.
    rewrite Hp in Hg. split.
    { apply elem_of_union in Hg as [Hg%elem_of_singleton|Hg]; done. }
    exists (opening w f s ++ rest), req, tail.
    split; [by rewrite Ht, <- !app_assoc|].
    do 4 (split; [done|]). intros Hfault.
    destruct Hr as [[-> ->]|(_ & Hsome & _)]; [done|congruence].
  - subst r s'. intros Hr.
    destruct (process_file_run w f s)
      as [(r & rest & Hrun & _ & Hne)|(rest & req & Hrun & _ & _ & _ & _)];
      rewrite Hrun in *.
    { by cbn in Hr. }
    destruct (on_success w f _) as [r s'] eqn:Hs.
    destruct (on_success_facts _ _ _ _ _ Hs) as (Hp & _ & Hfacts).
    cbn [fst snd logged processed] in *. subst r.
    destruct Hfacts as [[_ ->]|[[=] _]]. split; [|done].
    rewrite Hp. by apply elem_of_union_l, elem_of_singleton.
  - intros st Hfault Hdel Hrefused. rewrite on_success_run. cbv zeta.
    by rewrite Hfault, Hdel, Hrefused.
Qed.

(** *** The store *)

(** Loading reads the state and changes nothing. *)
Lemma load_state_state (s : Sys) : (load_state s).2 = s.
Proof.
  unfold load_state, py_set. exec.
  destruct (state_file s) as [text|]; [|done].
  destruct (json_loads text) as [data|]; exec; [|done].
  destruct data; exec; try done.
  destruct (Json.get "processed" (JArr []) fields); exec; try done.
  destruct (forallb Json.hashable items); exec; [|done].
  by destruct (forallb Json.is_str items).
Qed.

(** *** Start-up *)

Lemma validate_config_run (s : Sys) :
  validate_config s
  = match missing_settings with
    | [] => (Return tt, s)
    | name :: _ => (Raise (SystemExit 1), logged s [Log ERROR (name +:+ " is required")])
    end.
Proof.
  unfold validate_config, missing_settings. exec.
  destruct (String.eqb (STT_URL cfg) ""); [done|].
  destruct (String.eqb (OPENCLAW_URL cfg) ""); [done|].
  by destruct (String.eqb (OPENCLAW_HOOK_TOKEN cfg) "").
Qed.

Lemma missing_settings_nil :
  missing_settings = []
  <-> STT_URL cfg <> "" /\ OPENCLAW_URL cfg <> "" /\ OPENCLAW_HOOK_TOKEN cfg <> "".
Proof.
  unfold missing_settings. rewrite <- !String.eqb_neq.
  destruct (String.eqb (STT_URL cfg) ""), (String.eqb (OPENCLAW_URL cfg) ""),
    (String.eqb (OPENCLAW_HOOK_TOKEN cfg) ""); cbn; split; try done;
    intros (? & ? & ?); done.
Qed.

(** C8. When a required setting is empty, [main] logs that the first such
    setting is required and exits with status 1, which is not 0, having
    done nothing else: no file is processed and the state is only read
    later. When the three settings are there, the validation returns
    without effect and [main] goes on to announce its start. *)
Theorem missing_setting_aborts_startup (w : World) (rounds : list World) (s : Sys) :
  (forall name rest,
      missing_settings = name :: rest ->
      main w rounds s
      = (Raise (SystemExit 1), logged s [Log ERROR (name +:+ " is required")])
      /\ (name = "STT_URL" \/ name = "OPENCLAW_URL" \/ name = "OPENCLAW_HOOK_TOKEN")
      /\ (1 <> 0)%Z)
  /\ (STT_URL cfg <> "" -> OPENCLAW_URL cfg <> "" -> OPENCLAW_HOOK_TOKEN cfg <> "" ->
      validate_config s = (Return tt, s)
      /\ (trace s ++ [Log INFO "Voice Ingest starting"])
           `prefix_of` trace (main w rounds s).2).
Proof.
  split.
  - intros name rest Hmiss. split; [|split; [|done]].
    + unfold main, startup.
      pose proof (validate_config_run s) as Hv. rewrite Hmiss in Hv.
      unfold bind at 1. unfold bind at 1. unfold bind at 1. by rewrite Hv.
    + revert Hmiss. unfold missing_settings.
      destruct (String.eqb (STT_URL cfg) ""), (String.eqb (OPENCLAW_URL cfg) ""),
        (String.eqb (OPENCLAW_HOOK_TOKEN cfg) ""); cbn; intros [= <- _]; by eauto.
  - intros H1 H2 H3.
    assert (missing_settings = []) as Hnone by (by apply missing_settings_nil).
    pose proof (validate_config_run s) as Hv. rewrite Hnone in Hv.
    split; [done|].
    unfold main, startup. exec. rewrite Hv. exec.
    match goal with
    | |- context [load_state ?st] =>
        pose proof (load_state_state st) as Hl;
        destruct (load_state st) as [p st'];
        cbn [snd] in Hl; subst st'
    end.
    assert (forall more, trace s ++ [Log INFO "Voice Ingest starting"]
                         `prefix_of` trace s ++ Log INFO "Voice Ingest starting" :: more)
      as Hhead by (intros; apply prefix_app, prefix_cons, prefix_nil).
    destruct p as [p| |]; exec;
      [|normalise_logged; apply Hhead..].
    match goal with
    | |- context [process_existing w ?st] =>
        pose proof (process_existing_grows w st) as [_ Hg];
        destruct (process_existing w st) as [[[]| |] st1]
    end; cbn [snd trace] in Hg; exec;
      [|(etrans; [|exact Hg]); normalise_logged; apply Hhead..].
    match goal with
    | |- context [main_loop rounds ?st] =>
        pose proof (main_loop_grows rounds st) as [_ Hm];
        destruct (main_loop rounds st) as [[[]| |] st2]
    end; cbn [snd trace] in *;
      (etrans; [|exact Hm]); cbn [trace];
      (etrans; [|apply prefix_app_r, prefix_app_r, prefix_app_r; exact Hg]);
      normalise_logged; apply Hhead.
Qed.

(** *** Transcripts *)

Lemma lstrip_blank s : Py.all_space s = true -> Py.lstrip s = "".
Proof.
  induction s as [|c s IH]; [done|]. cbn.
  intros [Hc Hs]%andb_true_iff. rewrite Hc. by apply IH.
Qed.

Lemma rstrip_blank s : Py.rstrip s = "" <-> Py.all_space s = true.
Proof.
  induction s as [|c s IH]; [done|]. cbn.
  destruct (Py.rstrip s) as [|d r].
  - destruct (Py.isspace c); cbn; [|done].
    split; intros _; [by apply IH|done].
  - split; [done|]. intros [_ Hs]%andb_true_iff. by apply IH in Hs.
Qed.

Lemma lstrip_head s :
  Py.lstrip s = "" \/ exists c t, Py.lstrip s = String c t /\ Py.isspace c = false.
Proof.
  induction s as [|c s IH]; [by left|]. cbn.
  destruct (Py.isspace c) eqn:Hc; [done|]. right. by eauto.
Qed.

Lemma lstrip_all_space s : Py.all_space (Py.lstrip s) = Py.all_space s.
Proof.
  induction s as [|c s IH]; [done|]. cbn.
  destruct (Py.isspace c) eqn:Hc; [done|]. cbn. by rewrite Hc.
Qed.

(** A string strips to nothing exactly when it is empty or white space. *)
Lemma strip_blank s : Py.strip s = "" <-> Py.all_space s = true.
Proof. unfold Py.strip. by rewrite rstrip_blank, lstrip_all_space. Qed.

Lemma rstrip_idem s : Py.rstrip (Py.rstrip s) = Py.rstrip s.
Proof.
  induction s as [|c s IH]; [done|]. cbn.
  destruct (Py.rstrip s) as [|d r] eqn:Hr.
  - destruct (Py.isspace c) eqn:Hc; [done|]. cbn. by rewrite Hc.
  - cbn [Py.rstrip] in IH |- *. fold Py.rstrip in *.
    change (Py.rstrip (String c (String d r)))
      with (match Py.rstrip (String d r) with
            | "" => if Py.isspace c then "" else String c ""
            | x => String c x
            end).
    by rewrite IH.
Qed.

Lemma rstrip_head c t :
  Py.isspace c = false -> exists r, Py.rstrip (String c t) = String c r.
Proof.
  intros Hc. cbn. destruct (Py.rstrip t); rewrite ?Hc; by eauto.
Qed.

(** Stripping twice is stripping once. *)
Lemma strip_idem s : Py.strip (Py.strip s) = Py.strip s.
Proof.
  unfold Py.strip.
  destruct (lstrip_head s) as [->|(c & t & -> & Hc)]; [done|].
  destruct (rstrip_head c t Hc) as (r & Hr). rewrite Hr.
  cbn [Py.lstrip]. rewrite Hc, <- Hr. apply rstrip_idem.
Qed.

(** C9. When the STT response parses and its text, absent or present, is
    empty or white space only, [transcribe] returns [None]; and whenever it
    returns a transcript, the text of it is stripped and is not empty. *)
Theorem transcript_text_is_not_blank (w : World) (f : string) (s : Sys) :
  (forall e code body fields t,
      watch_dir s !! f = Some e ->
      is_dir e || unreadable w f = false ->
      stt_reply w f = Response code body ->
      ((400 <=? code) && (code <? 600))%Z = false ->
      json_loads body = Some (JObj fields) ->
      Json.get "text" (JStr "") fields = JStr t ->
      Py.all_space t = true ->
      transcribe w f s
      = (Return None,
         logged s [SttPost (STT_URL cfg) (STT_MODEL cfg) f;
                   Log WARNING "Empty transcript for %s"]))
  /\ (forall r s',
        transcribe w f s = (Return (Some r), s') ->
        tr_text r <> ""
        /\ Py.strip (tr_text r) = tr_text r
        /\ Py.all_space (tr_text r) = false).
Proof.
  split.
  - intros e code body fields t He Hopen Hreply Hcode Hjson Htext Hblank.
    unfold transcribe. exec. rewrite He. exec. rewrite Hopen. exec.
    rewrite Hreply. exec. rewrite Hcode. exec. rewrite Hjson. exec.
    rewrite Htext. exec.
    apply strip_blank in Hblank. rewrite Hblank, String.eqb_refl. exec.
    by normalise_logged.
  - intros r s'. unfold transcribe. exec.
    destruct (watch_dir s !! f) as [e|]; exec; [|done].
    destruct (is_dir e || unreadable w f); exec; [done|].
    destruct (stt_reply w f) as [|code body]; exec; [done|].
    destruct ((400 <=? code)%Z && (code <? 600)%Z); exec; [done|].
    destruct (json_loads body) as [data|]; exec; [|done].
    destruct data; exec; try done.
    destruct (Json.get "text" (JStr "") fields) as [| | | |t| |]; exec; try done.
    destruct (String.eqb (Py.strip t) "") eqn:Hne; exec; [done|].
    intros [= <- _]. cbn [tr_text].
    apply String.eqb_neq in Hne.
    split; [done|]. split; [apply strip_idem|].
    destruct (Py.all_space (Py.strip t)) eqn:Hall; [|done].
    apply strip_blank in Hall. rewrite strip_idem in Hall. done.
Qed.

(** *** The store, written and read *)

Lemma load_state_absent (s : Sys) :
  state_file s = None -> load_state s = (Return ∅, s).
Proof. intros H. unfold load_state. exec. by rewrite H. Qed.

Lemma load_state_undecodable (s : Sys) text :
  state_file s = Some text -> json_loads text = None ->
  load_state s = (Return ∅, s).
Proof. intros H1 H2. unfold load_state. exec. by rewrite H1, H2. Qed.

Lemma load_state_no_key (s : Sys) text fields :
  state_file s = Some text -> json_loads text = Some (JObj fields) ->
  Json.lookup "processed" fields = None ->
  load_state s = (Return ∅, s).
Proof.
  intros H1 H2 H3. unfold load_state, py_set. exec.
  rewrite H1, H2. exec. unfold Json.get. by rewrite H3.
Qed.

Lemma names_hashable (names : list string) :
  forallb Json.hashable (map JStr names) = true.
Proof. induction names; cbn; auto. Qed.

Lemma names_are_str (names : list string) :
  forallb Json.is_str (map JStr names) = true.
Proof. induction names; cbn; auto. Qed.

Lemma names_back (names : list string) :
  omap Json.str_of (map JStr names) = names.
Proof. induction names as [|n names IH]; [done|]. cbn. by rewrite IH. Qed.

Lemma load_state_names (s : Sys) text fields (names : list string) :
  state_file s = Some text -> json_loads text = Some (JObj fields) ->
  Json.lookup "processed" fields = Some (JArr (map JStr names)) ->
  load_state s = (Return (list_to_set names), s).
Proof.
  intros H1 H2 H3. unfold load_state, py_set. exec.
  rewrite H1, H2. exec. unfold Json.get. rewrite H3.
  by rewrite names_hashable, names_are_str, names_back.
Qed.

Lemma load_state_not_a_dict (s : Sys) text data :
  state_file s = Some text -> json_loads text = Some data ->
  (forall fields, data <> JObj fields) ->
  load_state s = (Raise AttributeError, s).
Proof.
  intros H1 H2 H3. unfold load_state. exec. rewrite H1, H2.
  destruct data; exec; try done. by destruct (H3 fields).
Qed.

(** C10. Saving a set of names and loading it again gives the set back,
    when the state file can be written and [json.loads] reads back the
    document that [json.dumps] wrote. *)
Theorem save_then_load (w : World) (members : gset string) (s : Sys) :
  store_fault w = None ->
  json_loads (json_dumps (state_document members (now_iso w)))
  = Some (state_document members (now_iso w)) ->
  exists s1,
    save_state w members s = (Return tt, s1)
    /\ state_file s1 = Some (json_dumps (state_document members (now_iso w)))
    /\ load_state s1 = (Return members, s1).
Proof.
  intros Hfault Hlib. unfold save_state. exec. rewrite Hfault. exec.
  eexists. split; [reflexivity|]. split; [done|].
  erewrite load_state_names; [|done|exact Hlib|reflexivity].
  f_equal. f_equal.
  rewrite <- (list_to_set_elements_L members) at 2.
  apply list_to_set_perm_L. unfold Py.sorted. apply merge_sort_Permutation.
Qed.

(** *** Crashes during a save *)

Lemma str_app_cons (x : ascii) (a b : string) :
  String x a +:+ b = String x (a +:+ b).
Proof. reflexivity. Qed.

Lemma str_app_assoc (a b c : string) : (a +:+ b) +:+ c = a +:+ (b +:+ c).
Proof.
  induction a as [|x a IH]; [done|]. rewrite !str_app_cons. by f_equal.
Qed.

Lemma str_app_nil_r (a : string) : a +:+ "" = a.
Proof.
  induction a as [|x a IH]; [done|]. rewrite str_app_cons. by f_equal.
Qed.

Lemma flushes_last (written : string) (chunks : list string) :
  last (Some written :: WriteText.flushes written chunks)
  = Some (Some (written +:+ WriteText.concat_chunks chunks)).
Proof.
  revert written. induction chunks as [|c rest IH]; intros written.
  - cbn. by rewrite str_app_nil_r.
  - cbn [WriteText.flushes WriteText.concat_chunks].
    rewrite last_cons_cons, IH. by rewrite str_app_assoc.
Qed.

Lemma flushes_prefix (written : string) (chunks : list string) i found :
  WriteText.flushes written chunks !! i = Some found ->
  exists more rest,
    found = Some (written +:+ more)
    /\ WriteText.concat_chunks chunks = more +:+ rest.
Proof.
  revert written i. induction chunks as [|c tail IH]; intros written i; [done|].
  cbn [WriteText.flushes WriteText.concat_chunks]. destruct i as [|i]; cbn.
  - intros [= <-]. by exists c, (WriteText.concat_chunks tail).
  - intros H. destruct (IH _ _ H) as (more & rest & -> & Hrest).
    exists (c +:+ more), rest. split.
    + by rewrite str_app_assoc.
    + by rewrite Hrest, str_app_assoc.
Qed.

(** C4, as the code has it. A save that completes leaves the whole new
    document, the sorted names and the time of the save, in the state
    file. It is written in place: the file is emptied and then filled, so
    that a crash during the save leaves the old content or the beginning
    of the new one, which may be empty or partial. *)
Theorem save_rewrites_in_place (w : World) (members : gset string) (s : Sys)
    (chunks : list string) :
  let text := json_dumps (state_document members (now_iso w)) in
  WriteText.concat_chunks chunks = text ->
  (store_fault w = None ->
   save_state w members s
   = (Return tt,
      mkSys (watch_dir s) (Some text) (processed s) (trace s ++ [WriteState text])))
  /\ last (WriteText.stages (state_file s) chunks) = Some (Some text)
  /\ (forall i found,
        WriteText.stages (state_file s) chunks !! i = Some found ->
        found = state_file s
        \/ exists written rest, found = Some written /\ text = written +:+ rest).
Proof.
  intros text Hchunks. split; [|split].
  - intros Hfault. unfold save_state. exec. rewrite Hfault. by exec.
  - unfold WriteText.stages. rewrite last_cons_cons, flushes_last.
    by rewrite Hchunks.
  - intros i found. unfold WriteText.stages.
    destruct i as [|[|i]]; cbn.
    + intros [= <-]. by left.
    + intros [= <-]. right. by exists "", text.
    + intros H. right.
      destruct (flushes_prefix _ _ _ _ H) as (more & rest & -> & Hrest).
      exists more, rest. split; [done|]. by rewrite <- Hchunks.
Qed.





(** ** Further properties of the code *)

(** *** The transcription client, case by case *)

(** How lines 77-100 end, by what the file system and the STT endpoint
    answer. *)
Lemma transcribe_cases (w : World) (f : string) (s : Sys) :
  let post := SttPost (STT_URL cfg) (STT_MODEL cfg) f in
  transcribe w f s =
  match watch_dir s !! f with
  | None => (Raise FileNotFoundError, s)
  | Some e =>
      if is_dir e || unreadable w f then (Raise OSError, s)
      else
        match stt_reply w f with
        | TransportFailure =>
            (Return None,
             logged s [post; Log ERROR "STT request failed for %s: %s"])
        | Response code body =>
            if ((400 <=? code) && (code <? 600))%Z then
              (Return None,
               logged s [post; Log ERROR "STT request failed for %s: %s"])
            else
              match json_loads body with
              | None =>
                  (Return None,
                   logged s [post; Log ERROR "STT response parse error for %s: %s"])
              | Some (JObj fields) =>
                  match Json.get "text" (JStr "") fields with
                  | JStr t =>
                      if String.eqb (Py.strip t) "" then
                        (Return None,
                         logged s [post; Log WARNING "Empty transcript for %s"])
                      else
                        (Return (Some {| tr_text := Py.strip t;
                                         tr_duration := Json.get "duration" JNull fields |}),
                         logged s [post])
                  | _ => (Raise AttributeError, logged s [post])
                  end
              | Some _ => (Raise AttributeError, logged s [post])
              end
        end
  end.
Proof.
  intros post. unfold transcribe. exec.
  destruct (watch_dir s !! f) as [e|]; exec; [|done].
  destruct (is_dir e || unreadable w f); exec; [done|].
  destruct (stt_reply w f) as [|code body]; exec; [by normalise_logged|].
  destruct ((400 <=? code)%Z && (code <? 600)%Z); exec; [by normalise_logged|].
  destruct (json_loads body) as [data|]; exec; [|by normalise_logged].
  destruct data; exec; try done.
  destruct (Json.get "text" (JStr "") fields); exec; try done.
  destruct (String.eqb (Py.strip s0) ""); exec; by normalise_logged.
Qed.

(** *** One attempt, case by case *)

(** How lines 164-216 end, by what [transcribe] and the webhook answer. *)
Lemma process_file_cases (w : World) (f : string) (s : Sys) :
  process_file w f s =
  if bool_decide (f ∈ processed s) then (Return false, s)
  else
    match watch_dir s !! f with
    | None => (Raise FileNotFoundError, s)
    | Some e =>
        if Py.float_lt_int (clock w f - st_mtime e) (MIN_FILE_AGE cfg) then
          (Return false, logged s [Log DEBUG "Skipping %s (too new, age=%.1fs)"])
        else
          match transcribe w f (logged s [Log INFO "Processing: %s (%.1f KB)"]) with
          | (Return (Some tr), s1) =>
              let req := hook_request (tr_text tr) (metadata_of f e tr) in
              let s2 := logged s1 [Log INFO "Transcript: %s"; HookPost req;
                                   hook_log (hook_reply w req)] in
              if confirms (hook_reply w req) then on_success w f s2
              else
                (Return false,
                 logged s2 [Log ERROR
                              "Webhook delivery failed for %s — will retry next cycle"])
          | (Return None, s1) =>
              (Return false,
               logged s1 [Log ERROR "Transcription failed for %s — skipping"])
          | (Raise x, s1) => (Raise x, s1)
          | (Untyped, s1) => (Untyped, s1)
          end
    end.
Proof.
  unfold process_file. exec.
  case_bool_decide as Hmem; [done|].
  destruct (watch_dir s !! f) as [e|] eqn:He; [|done].
  destruct (Py.float_lt_int _ _); [done|].
  rewrite He. exec.
  match goal with
  | |- context [transcribe w f ?st] =>
      destruct (transcribe_run w f st) as (r1 & ev & Ht & _ & _); rewrite Ht
  end.
  destruct r1 as [[tr|]| |]; exec; try done.
  rewrite He. unfold metadata_of.
  match goal with
  | |- context [send_to_openclaw w ?t ?md ?st] =>
      rewrite (send_to_openclaw_run w t md st);
      set (request := hook_request t md) in *
  end.
  destruct (confirms (hook_reply w request)) eqn:Hc.
  - unfold on_success. exec. normalise_logged. reflexivity.
  - by normalise_logged.
Qed.

Lemma fresh_app (s s' : Sys) (events : list event) :
  trace s' = trace s ++ events -> fresh s s' = events.
Proof. intros H. unfold fresh. rewrite H. apply drop_app_length. Qed.

Lemma fresh_prefix (s s' : Sys) :
  trace s `prefix_of` trace s' -> trace s' = trace s ++ fresh s s'.
Proof. intros [events H]. by rewrite (fresh_app _ _ _ H). Qed.

Lemma fresh_trans (s s' s'' : Sys) :
  trace s `prefix_of` trace s' -> trace s' `prefix_of` trace s'' ->
  fresh s s'' = fresh s s' ++ fresh s' s''.
Proof.
  intros H1 H2. apply fresh_app.
  rewrite (fresh_prefix _ _ H2), (fresh_prefix _ _ H1) at 1.
  by rewrite app_assoc.
Qed.

Lemma fresh_refl (s : Sys) : fresh s s = [].
Proof. apply fresh_app. by rewrite app_nil_r. Qed.

(** Splits an attempt into its cases, down to the state it ends in. *)
Ltac attempt_cases w f s :=
  rewrite (process_file_cases w f s);
  try rewrite transcribe_cases;
  cbv zeta; cbn [logged watch_dir state_file processed trace];
  repeat (case_match; cbn [logged watch_dir state_file processed trace];
          try rewrite on_success_run; cbv zeta;
          cbn [logged watch_dir state_file processed trace]);
  simplify_eq.

(** X3. Whatever an attempt on [f] adds to the trace is about [f]: the
    upload names [f] and goes to the configured endpoint with the
    configured model, the delivery request is the one built from a
    transcript with a text that is not empty and from the status of [f],
    the store is written with the set that has [f] in it, and the deletion
    is that of [f]. *)
Theorem attempt_effects (w : World) (f : string) (s : Sys) :
  Forall (fun e =>
            match e with
            | SttPost url model g =>
                url = STT_URL cfg /\ model = STT_MODEL cfg /\ g = f
            | HookPost req =>
                exists tr st,
                  req = hook_request (tr_text tr) (metadata_of f st tr)
                  /\ watch_dir s !! f = Some st
                  /\ tr_text tr <> ""
                  /\ sessionKey req = "hook:voice:" +:+ f
            | WriteState text =>
                text = json_dumps (state_document ({[f]} ∪ processed s) (now_iso w))
            | Unlink g => g = f
            | Log _ _ | Mkdir _ => True
            end)
    (fresh s (process_file w f s).2).
Proof.
  attempt_cases w f s; cbn [snd];
    (rewrite fresh_refl
     || erewrite fresh_app by (normalise_logged; reflexivity));
    repeat (apply Forall_cons; split); try apply Forall_nil; try done.
  all: try match goal with
            | |- context [hook_log ?r] =>
                by destruct (hook_log_is_log r) as (lvl & fmt & ->)
            end.
  all: eexists _, _; split; [reflexivity|]; split; [reflexivity|];
    (split; [by apply String.eqb_neq|done]).
Qed.


(** *** Relations that every operation keeps *)

(** The events of an attempt on [f] that are about a file are about
    [f]. *)
Lemma process_file_about (w : World) (f : string) (s : Sys) :
  Forall (fun e => subject e = None \/ subject e = Some f)
    (fresh s (process_file w f s).2).
Proof.
  attempt_cases w f s; cbn [snd];
    (rewrite fresh_refl
     || erewrite fresh_app by (normalise_logged; reflexivity));
    repeat (apply Forall_cons; split); try apply Forall_nil; try done;
    try (by left); try (by right).
  all: match goal with
       | |- context [hook_log ?r] =>
           destruct (hook_log_is_log r) as (lvl & fmt & ->); by left
       end.
Qed.

(** An attempt leaves the watch directory as it was, or without its
    candidate, which it has then added to the Processed-Set. *)
Lemma process_file_dir (w : World) (f : string) (s : Sys) :
  let s' := (process_file w f s).2 in
  watch_dir s' = watch_dir s
  \/ watch_dir s' = delete f (watch_dir s)
     /\ DELETE_AFTER cfg = true /\ (f ∉ processed s) /\ f ∈ processed s'.
Proof.
  cbv zeta.
  destruct (process_file_run w f s)
    as [(r & ev & -> & _ & _)|(rest & req & -> & _ & _ & _ & Hnew)].
  { by left. }
  rewrite on_success_run. cbv zeta.
  destruct (store_fault w); [by left|].
  destruct (DELETE_AFTER cfg); [|by left].
  destruct (deletion_refused w f _); [by left|].
  right. cbn. split; [done|]. split; [done|]. split; [done|].
  by apply elem_of_union_l, elem_of_singleton.
Qed.

Section Lifting.

(** A relation between the state before and the state after that an
    attempt and a log line keep is kept by a sweep, by the polling loop and
    by the two handlers. *)
Variable R : relation Sys.
Hypothesis R_preorder : PreOrder R.
Hypothesis R_line : forall s lvl fmt, R s (logged s [Log lvl fmt]).
Hypothesis R_attempt : forall w f s, R s (process_file w f s).2.

Lemma sweep_keeps (w : World) (paths : list string) :
  forall count s, R s (sweep w paths count s).2.
Proof.
  induction paths as [|path rest IH]; intros count s; [done|].
  cbn [sweep]. exec.
  destruct (match watch_dir s !! path with
            | Some e => negb (is_dir e)
            | None => false
            end && is_audio path); [|by apply IH].
  pose proof (R_attempt w path s) as Hstep.
  destruct (process_file w path s) as [[ok| |] s1]; cbn [snd] in *; [|done..].
  etrans; [exact Hstep|]. apply IH.
Qed.

Lemma process_existing_keeps (w : World) (s : Sys) :
  R s (process_existing w s).2.
Proof.
  unfold process_existing. exec.
  pose proof (sweep_keeps w (Py.sorted (elements (dom (watch_dir s)))) 0 s) as H.
  destruct (sweep w _ 0 s) as [[count| |] s1]; cbn [snd] in *; [|done..].
  destruct (count =? 0)%Z; [done|].
  etrans; [exact H|]. apply (R_line s1).
Qed.

Lemma main_loop_keeps (rounds : list World) :
  forall s, R s (main_loop rounds s).2.
Proof.
  induction rounds as [|w rest IH]; intros s; [done|].
  cbn [main_loop]. exec.
  pose proof (process_existing_keeps w s) as H.
  destruct (process_existing w s) as [[[]| |] s1]; cbn [snd] in *; [|done..].
  etrans; [exact H|]. apply IH.
Qed.

Lemma handlers_keep (w : World) (d : bool) (f : string) (s : Sys) :
  R s (on_created w d f s).2 /\ R s (on_moved w d f s).2.
Proof.
  pose proof (R_attempt w f s) as Hstep.
  unfold on_created, on_moved.
  split; (destruct d; [done|]); (destruct (is_audio f); [|done]); exec;
    (case_bool_decide; [|done]);
    by destruct (process_file w f s) as [[ok| |] s1].
Qed.

End Lifting.


(** *** What the loop never does *)

Lemma left_alone_preorder (f : string) :
  PreOrder (fun s s' => f ∈ processed s -> grows s s' /\ left_alone f s s').
Proof.
  split.
  - intros s _. split; [reflexivity|]. split; [|done].
    rewrite fresh_refl. apply Forall_nil_2.
  - intros a b c Hab Hbc Hin.
    destruct (Hab Hin) as (Hg1 & Hf1 & Hd1).
    destruct (Hbc (proj1 Hg1 _ Hin)) as (Hg2 & Hf2 & Hd2).
    split; [by etrans|]. split; [|congruence].
    rewrite (fresh_trans a b c) by (apply Hg1 || apply Hg2).
    by apply Forall_app.
Qed.

Lemma process_file_left_alone (f : string) (w : World) (g : string) (s : Sys) :
  f ∈ processed s ->
  grows s (process_file w g s).2 /\ left_alone f s (process_file w g s).2.
Proof.
  intros Hin. split; [apply process_file_grows|].
  destruct (decide (g = f)) as [->|Hne].
  { rewrite process_file_member by done. split; [|done].
    rewrite fresh_refl. apply Forall_nil_2. }
  split.
  - eapply Forall_impl; [apply process_file_about|].
    intros e [He|He]; rewrite He; congruence.
  - destruct (process_file_dir w g s) as [->|(-> & _)]; [done|].
    by apply lookup_delete_ne.
Qed.

(** X4. Once the name of a file is in the Processed-Set, no later round of
    the polling loop and no later event does anything about that file,
    whatever happens to the other files: nothing is uploaded, delivered or
    deleted under its name, and if the file is still in the watch
    directory, because deletion is off or was refused, it stays there. *)
Theorem delivered_file_left_alone (f : string) (s : Sys) :
  f ∈ processed s ->
  (forall rounds, left_alone f s (main_loop rounds s).2)
  /\ (forall w d p, left_alone f s (on_created w d p s).2)
  /\ (forall w d p, left_alone f s (on_moved w d p s).2).
Proof.
  intros Hin.
  pose proof (left_alone_preorder f) as Hpre.
  assert (forall s0 lvl fmt,
             f ∈ processed s0 ->
             grows s0 (logged s0 [Log lvl fmt])
             /\ left_alone f s0 (logged s0 [Log lvl fmt])) as Hline.
  { intros s0 lvl fmt _. split; [apply grows_logged|]. split; [|done].
    erewrite fresh_app by reflexivity. by apply Forall_singleton. }
  pose proof (fun w g s0 => process_file_left_alone f w g s0) as Hstep.
  split; [|split].
  - intros rounds. by apply (main_loop_keeps _ Hpre Hline Hstep rounds s).
  - intros w d p. by apply (handlers_keep _ Hpre Hstep w d p s).
  - intros w d p. by apply (handlers_keep _ Hpre Hstep w d p s).
Qed.

Lemma kept_preorder : PreOrder (fun s s' => grows s s' /\ kept s s').
Proof.
  split.
  - intros s. split; [reflexivity|]. split; [done|].
    intros g [e He] Hnone. congruence.
  - intros a b c [Hg1 [Hs1 Hk1]] [Hg2 [Hs2 Hk2]].
    split; [by etrans|]. split; [by etrans|].
    intros g Ha Hc.
    destruct (watch_dir b !! g) as [e|] eqn:Hb.
    + destruct (Hk2 g) as [Hin Hout]; [by eauto|done|].
      split; [done|]. intros Hina. apply Hout. by apply Hg1.
    + destruct (Hk1 g Ha Hb) as [Hin Hout].
      split; [|done]. by apply Hg2.
Qed.

Lemma process_file_kept (w : World) (f : string) (s : Sys) :
  grows s (process_file w f s).2 /\ kept s (process_file w f s).2.
Proof.
  split; [apply process_file_grows|]. unfold kept.
  destruct (process_file_dir w f s) as [->|(-> & _ & Hout & Hin)].
  - split; [done|]. intros g [e He] Hnone. congruence.
  - split; [apply delete_subseteq|].
    intros g [e He] Hnone.
    destruct (decide (g = f)) as [->|Hne]; [done|].
    rewrite lookup_delete_ne in Hnone by done. congruence.
Qed.

(** X6. The service deletes delivered files only. Over any number of
    rounds of the polling loop, and over any event, the watch directory
    only loses entries, and each entry it loses is that of a name that was
    not in the Processed-Set before and is in it afterwards. *)
Theorem only_delivered_files_are_deleted (s : Sys) :
  (forall rounds, kept s (main_loop rounds s).2)
  /\ (forall w d p, kept s (on_created w d p s).2)
  /\ (forall w d p, kept s (on_moved w d p s).2).
Proof.
  pose proof kept_preorder as Hpre.
  assert (forall s0 lvl fmt,
             grows s0 (logged s0 [Log lvl fmt])
             /\ kept s0 (logged s0 [Log lvl fmt])) as Hline.
  { intros s0 lvl fmt. split; [apply grows_logged|]. split; [done|].
    intros g [e He] Hnone. cbn in Hnone. congruence. }
  split; [|split].
  - intros rounds. apply (main_loop_keeps _ Hpre Hline process_file_kept rounds s).
  - intros w d p. apply (handlers_keep _ Hpre process_file_kept w d p s).
  - intros w d p. apply (handlers_keep _ Hpre process_file_kept w d p s).
Qed.

Lemma no_deletion_preorder : PreOrder (fun s s' => grows s s' /\ no_deletion s s').
Proof.
  split.
  - intros s. split; [reflexivity|]. split; [done|].
    rewrite fresh_refl. apply Forall_nil_2.
  - intros a b c [Hg1 [Hd1 Hf1]] [Hg2 [Hd2 Hf2]].
    split; [by etrans|]. split; [congruence|].
    rewrite (fresh_trans a b c) by (apply Hg1 || apply Hg2).
    by apply Forall_app.
Qed.

Lemma process_file_no_deletion (w : World) (f : string) (s : Sys) :
  DELETE_AFTER cfg = false ->
  grows s (process_file w f s).2 /\ no_deletion s (process_file w f s).2.
Proof.
  intros Hoff. split; [apply process_file_grows|]. unfold no_deletion. split.
  { destruct (process_file_dir w f s) as [->|(_ & Hon & _)]; congruence. }
  revert Hoff.
  attempt_cases w f s; cbn [snd]; intros Hoff; try congruence;
    (rewrite fresh_refl
     || erewrite fresh_app by (normalise_logged; reflexivity));
    repeat (apply Forall_cons; split); try apply Forall_nil; try done.
  all: match goal with
       | |- context [hook_log ?r] =>
           by destruct (hook_log_is_log r) as (lvl & fmt & ->)
       end.
Qed.

(** X7. With [DELETE_AFTER] off the service deletes nothing: over any
    number of rounds of the polling loop, and over any event, the watch
    directory stays as it was and no deletion is even asked for. *)
Theorem deletion_disabled (s : Sys) :
  DELETE_AFTER cfg = false ->
  (forall rounds, no_deletion s (main_loop rounds s).2)
  /\ (forall w d p, no_deletion s (on_created w d p s).2)
  /\ (forall w d p, no_deletion s (on_moved w d p s).2).
Proof.
  intros Hoff.
  pose proof no_deletion_preorder as Hpre.
  assert (forall s0 lvl fmt,
             grows s0 (logged s0 [Log lvl fmt])
             /\ no_deletion s0 (logged s0 [Log lvl fmt])) as Hline.
  { intros s0 lvl fmt. split; [apply grows_logged|]. split; [done|].
    erewrite fresh_app by reflexivity. by apply Forall_singleton. }
  pose proof (fun w g s0 => process_file_no_deletion w g s0 Hoff) as Hstep.
  split; [|split].
  - intros rounds. apply (main_loop_keeps _ Hpre Hline Hstep rounds s).
  - intros w d p. apply (handlers_keep _ Hpre Hstep w d p s).
  - intros w d p. apply (handlers_keep _ Hpre Hstep w d p s).
Qed.


(** *** Sweeps with nothing to do *)

Lemma listing_elem (s : Sys) (p : string) :
  p ∈ Py.sorted (elements (dom (watch_dir s))) <-> is_Some (watch_dir s !! p).
Proof.
  unfold Py.sorted. rewrite merge_sort_Permutation, elem_of_elements.
  apply elem_of_dom.
Qed.

Lemma sweep_idle (w : World) (paths : list string) (s : Sys) :
  (forall p e, p ∈ paths -> watch_dir s !! p = Some e ->
               is_dir e = true \/ is_audio p = false \/ p ∈ processed s) ->
  forall count, sweep w paths count s = (Return count, s).
Proof.
  induction paths as [|path rest IH]; intros Hidle count; [done|].
  cbn [sweep]. exec.
  assert (forall p e, p ∈ rest -> watch_dir s !! p = Some e ->
                      is_dir e = true \/ is_audio p = false \/ p ∈ processed s)
    as Hrest.
  { intros p e Hp. apply Hidle. by apply list_elem_of_further. }
  destruct (watch_dir s !! path) as [e|] eqn:He; [|by apply IH].
  destruct (Hidle path e) as [Hd|[Ha|Hin]]; [apply list_elem_of_here|done|..].
  - rewrite Hd. by apply IH.
  - rewrite Ha, andb_false_r. by apply IH.
  - destruct (negb (is_dir e) && is_audio path); [|by apply IH].
    rewrite process_file_member by done. by apply IH.
Qed.

(** An attempt on a file that is in the watch directory and not in the
    Processed-Set leaves at least one line. *)
Lemma process_file_speaks (w : World) (f : string) (s : Sys) (e : DirEntry) :
  watch_dir s !! f = Some e -> f ∉ processed s ->
  (length (trace s) < length (trace (process_file w f s).2))%nat.
Proof.
  intros He Hnew. destruct (process_file_trace w f s) as (rest & ->).
  unfold opening. rewrite bool_decide_eq_false_2, He by done.
  destruct (Py.float_lt_int _ _); rewrite !length_app; cbn [length]; lia.
Qed.

Lemma sweep_busy (w : World) (paths : list string) :
  forall count s,
    (exists p e, p ∈ paths /\ watch_dir s !! p = Some e /\ is_dir e = false
                 /\ is_audio p = true /\ p ∉ processed s) ->
    (length (trace s) < length (trace (sweep w paths count s).2))%nat.
Proof.
  induction paths as [|path rest IH]; intros count s (p & e & Hp & He & Hd & Ha & Hnew).
  { by apply elem_of_nil in Hp. }
  cbn [sweep]. exec.
  destruct (decide (path ∈ processed s)) as [Hin|Hout].
  - assert (p ∈ rest) as Hrest.
    { apply elem_of_cons in Hp as [->|Hp]; done. }
    destruct (_ && is_audio path).
    + rewrite process_file_member by done. apply IH. by exists p, e.
    + apply IH. by exists p, e.
  - apply elem_of_cons in Hp as [->|Hp].
    + rewrite He, Hd, Ha. cbn [negb andb].
      pose proof (process_file_speaks w path s e He Hout) as Hlen.
      destruct (process_file w path s) as [[ok| |] s1]; cbn [snd] in *; [|done..].
      pose proof (sweep_grows w rest (if ok then count + 1 else count)%Z s1)
        as [_ Hpre].
      apply prefix_length in Hpre. lia.
    + destruct (_ && is_audio path) eqn:Hcand; [|apply IH; by exists p, e].
      destruct (watch_dir s !! path) as [e'|] eqn:He'; [|done].
      pose proof (process_file_speaks w path s e' He' Hout) as Hlen.
      destruct (process_file w path s) as [[ok| |] s1]; cbn [snd] in *; [|done..].
      pose proof (sweep_grows w rest (if ok then count + 1 else count)%Z s1)
        as [_ Hpre].
      apply prefix_length in Hpre. lia.
Qed.

(** X2. A sweep is silent exactly when it has no candidate: it returns and
    leaves the whole state as it was, without a request and without a log
    line, if and only if every entry of the watch directory is a
    directory, has no audio extension, or bears a name of the
    Processed-Set. *)
Theorem sweep_is_silent_iff_idle (w : World) (s : Sys) :
  process_existing w s = (Return tt, s)
  <-> (forall p e, watch_dir s !! p = Some e ->
                   is_dir e = true \/ is_audio p = false \/ p ∈ processed s).
Proof.
  split.
  - intros Hrun p e He.
    destruct (is_dir e) eqn:Hd; [by left|].
    destruct (is_audio p) eqn:Ha; [|by right; left].
    destruct (decide (p ∈ processed s)) as [Hin|Hout]; [by right; right|].
    exfalso.
    pose proof (sweep_busy w (Py.sorted (elements (dom (watch_dir s)))) 0 s) as Hbusy.
    assert (length (trace s)
            < length (trace (sweep w (Py.sorted (elements (dom (watch_dir s)))) 0 s).2))%nat
      as Hlen.
    { apply Hbusy. exists p, e. split; [|done]. apply listing_elem. by eauto. }
    revert Hrun. unfold process_existing. exec.
    destruct (sweep w _ 0 s) as [[count| |] s1]; cbn [snd] in *; [|done..].
    destruct (count =? 0)%Z.
    + intros [= ->]. lia.
    + intros [= Hs]. rewrite <- Hs in Hlen at 1.
      cbn [trace] in Hlen. rewrite length_app in Hlen. cbn in Hlen. lia.
  - intros Hidle. unfold process_existing. exec.
    rewrite sweep_idle; [done|]. intros p e _. apply Hidle.
Qed.


(** *** What the answer of an attempt tells *)

Lemma process_file_answer (w : World) (f : string) (s : Sys) :
  match (process_file w f s).1 with
  | Return true =>
      (f ∉ processed s)
      /\ processed (process_file w f s).2 = {[f]} ∪ processed s
  | Return false =>
      exists events,
        (process_file w f s).2 = logged s events
        /\ unconfirmed w events = true
  | _ => True
  end.
Proof.
  destruct (process_file_run w f s)
    as [(r & rest & -> & Hun & Hr)|(rest & req & -> & _ & _ & _ & Hnew)].
  - cbn [fst snd]. destruct r as [[]| |]; try done. by eauto.
  - destruct (on_success w f _) as [r s'] eqn:Hrun.
    destruct (on_success_facts _ _ _ _ _ Hrun) as (Hp & _ & [[-> _]|[-> _]]);
      cbn [fst snd]; done.
Qed.

(** X9. An attempt that answers [False] has changed nothing but the
    trace: the Processed-Set, the state file and the watch directory are
    as before, the trace has gained neither a write of the store nor a
    deletion, and each delivery in it was not confirmed. *)
Theorem answer_false_changes_nothing (w : World) (f : string) (s : Sys) :
  (process_file w f s).1 = Return false ->
  exists events,
    (process_file w f s).2 = logged s events
    /\ Forall (fun e =>
                 match e with
                 | HookPost req => confirms (hook_reply w req) = false
                 | WriteState _ | Unlink _ => False
                 | _ => True
                 end) events.
Proof.
  intros Hr. pose proof (process_file_answer w f s) as H.
  rewrite Hr in H. destruct H as (events & Hs & Hun).
  exists events. split; [done|].
  apply List.Forall_forall. intros e He.
  unfold unconfirmed in Hun. rewrite forallb_forall in Hun.
  specialize (Hun e He).
  destruct e; try done. by apply negb_true_iff.
Qed.

Lemma size_step (f : string) (a b c : gset string) :
  f ∉ a -> b = {[f]} ∪ a -> b ⊆ c ->
  size (c ∖ a) = S (size (c ∖ b)).
Proof.
  intros Hf -> Hsub.
  assert (c ∖ a = {[f]} ∪ c ∖ ({[f]} ∪ a)) as ->.
  { apply set_eq. intros x.
    rewrite elem_of_union, !elem_of_difference, elem_of_union, elem_of_singleton.
    destruct (decide (x = f)) as [->|Hne].
    - split; [by left|]. intros _. split; [|done].
      apply Hsub. by apply elem_of_union_l, elem_of_singleton.
    - split; [intros [? ?]; right; split; [done|by intros [?|?]]|].
      intros [?|[? Hn]]; [done|]. split; [done|]. intros ?. apply Hn. by right. }
  rewrite size_union, size_singleton; [done|].
  intros x Hx%elem_of_singleton [_ Hn]%elem_of_difference. subst x.
  apply Hn. by apply elem_of_union_l, elem_of_singleton.
Qed.

(** X8. The number that a sweep counts is the number of names that it
    has added to the Processed-Set. *)
Theorem sweep_counts_new_names (w : World) (paths : list string) :
  forall count s n s',
    sweep w paths count s = (Return n, s') ->
    n = (count + Z.of_nat (size (processed s' ∖ processed s)))%Z.
Proof.
  induction paths as [|path rest IH]; intros count s n s'.
  { cbn [sweep]. exec. intros [= <- <-].
    rewrite difference_diag_L, size_empty. lia. }
  cbn [sweep]. exec.
  destruct (_ && is_audio path); [|by apply IH].
  pose proof (process_file_answer w path s) as Hans.
  destruct (process_file w path s) as [[ok| |] s1] eqn:Hrun;
    cbn [fst snd] in *; [|done..].
  intros Hrest.
  pose proof (sweep_grows w rest (if ok then count + 1 else count)%Z s1) as [Hsub _].
  rewrite Hrest in Hsub. cbn [snd] in Hsub.
  apply IH in Hrest. destruct ok.
  - destruct Hans as [Hnew Hadd].
    rewrite (size_step path (processed s) (processed s1) (processed s')) by done.
    lia.
  - destruct Hans as (events & -> & _). exact Hrest.
Qed.


(** *** An exception that escapes *)

(** X10. An answer of the STT endpoint that is JSON but not an object with
    a string under [text] is not contained. [AttributeError] leaves the
    transcription client, whose handlers name other exceptions, right
    after the upload; it leaves the attempt before any delivery; and it
    ends the sweep that made the attempt, so that the candidates after
    this one in the listing are not attempted. *)
Theorem malformed_stt_answer_escapes (w : World) (f : string) (s : Sys)
    (e : DirEntry) (code : Z) (body : string) (data : json) :
  watch_dir s !! f = Some e ->
  is_dir e || unreadable w f = false ->
  stt_reply w f = Response code body ->
  ((400 <=? code) && (code <? 600))%Z = false ->
  json_loads body = Some data ->
  (forall fields t,
      data = JObj fields -> Json.get "text" (JStr "") fields <> JStr t) ->
  transcribe w f s
  = (Raise AttributeError, logged s [SttPost (STT_URL cfg) (STT_MODEL cfg) f])
  /\ (f ∉ processed s ->
      Py.float_lt_int (clock w f - st_mtime e) (MIN_FILE_AGE cfg) = false ->
      process_file w f s
      = (Raise AttributeError,
         logged s [Log INFO "Processing: %s (%.1f KB)";
                   SttPost (STT_URL cfg) (STT_MODEL cfg) f])
      /\ (is_audio f = true ->
          forall rest count,
            sweep w (f :: rest) count s
            = (Raise AttributeError,
               logged s [Log INFO "Processing: %s (%.1f KB)";
                         SttPost (STT_URL cfg) (STT_MODEL cfg) f]))).
Proof.
  intros He Hopen Hreply Hcode Hjson Hbad.
  assert (forall s0,
             watch_dir s0 = watch_dir s ->
             transcribe w f s0
             = (Raise AttributeError,
                logged s0 [SttPost (STT_URL cfg) (STT_MODEL cfg) f])) as Hrun.
  { intros s0 Hd. rewrite transcribe_cases. cbv zeta.
    rewrite Hd, He, Hopen, Hreply, Hcode, Hjson.
    destruct data; try done.
    destruct (Json.get "text" (JStr "") fields) eqn:Hget; try done.
    exfalso. eapply Hbad; [reflexivity|exact Hget]. }
  split; [by apply Hrun|].
  intros Hnew Hage.
  assert (process_file w f s
          = (Raise AttributeError,
             logged s [Log INFO "Processing: %s (%.1f KB)";
                       SttPost (STT_URL cfg) (STT_MODEL cfg) f])) as Hattempt.
  { rewrite process_file_cases, bool_decide_eq_false_2, He, Hage by done.
    rewrite Hrun by done. by normalise_logged. }
  split; [exact Hattempt|].
  intros Haudio rest count. cbn [sweep]. exec.
  apply orb_false_iff in Hopen as [Hd _].
  rewrite He, Hd, Haudio. cbn [negb andb]. by rewrite Hattempt.
Qed.

(** *** A failing STT endpoint *)

(** X11. A failure of the STT endpoint is contained. When the request
    fails in transport, is answered with a status from 400 to 599, or is
    answered with a body that is not JSON, the client returns [None] after
    one error line, and an attempt on a file old enough answers [False]
    without a delivery: the file stays a candidate. *)
Theorem stt_failure_is_contained (w : World) (f : string) (s : Sys) (e : DirEntry) :
  watch_dir s !! f = Some e ->
  is_dir e || unreadable w f = false ->
  stt_reply w f = TransportFailure
  \/ (exists code body,
        stt_reply w f = Response code body
        /\ ((400 <= code < 600)%Z \/ json_loads body = None)) ->
  exists fmt,
    transcribe w f s
    = (Return None,
       logged s [SttPost (STT_URL cfg) (STT_MODEL cfg) f; Log ERROR fmt])
    /\ (f ∉ processed s ->
        Py.float_lt_int (clock w f - st_mtime e) (MIN_FILE_AGE cfg) = false ->
        process_file w f s
        = (Return false,
           logged s [Log INFO "Processing: %s (%.1f KB)";
                     SttPost (STT_URL cfg) (STT_MODEL cfg) f;
                     Log ERROR fmt;
                     Log ERROR "Transcription failed for %s — skipping"])).
Proof.
  intros He Hopen Hfail.
  assert (exists fmt, forall s0,
             watch_dir s0 = watch_dir s ->
             transcribe w f s0
             = (Return None,
                logged s0 [SttPost (STT_URL cfg) (STT_MODEL cfg) f; Log ERROR fmt]))
    as (fmt & Hrun).
  { destruct Hfail as [Hdown|(code & body & Hreply & [Hcode|Hbody])].
    - eexists. intros s0 Hd. rewrite transcribe_cases. cbv zeta.
      by rewrite Hd, He, Hopen, Hdown.
    - eexists. intros s0 Hd. rewrite transcribe_cases. cbv zeta.
      rewrite Hd, He, Hopen, Hreply.
      assert ((400 <=? code)%Z && (code <? 600)%Z = true) as ->; [|done].
      apply andb_true_iff. split; [apply Z.leb_le|apply Z.ltb_lt]; lia.
    - destruct ((400 <=? code)%Z && (code <? 600)%Z) eqn:Hcode.
      + eexists. intros s0 Hd. rewrite transcribe_cases. cbv zeta.
        by rewrite Hd, He, Hopen, Hreply, Hcode.
      + eexists. intros s0 Hd. rewrite transcribe_cases. cbv zeta.
        by rewrite Hd, He, Hopen, Hreply, Hcode, Hbody. }
  exists fmt. split; [by apply Hrun|].
  intros Hnew Hage.
  rewrite process_file_cases, bool_decide_eq_false_2, He, Hage by done.
  rewrite Hrun by done. by normalise_logged.
Qed.

(** *** The calls of an attempt, in order *)

(** X12. An attempt makes its calls in one order and each at most once:
    the upload, then the delivery, then the write of the store, then the
    deletion, and none of them without the one before. *)
Theorem calls_of_an_attempt (w : World) (f : string) (s : Sys) :
  exists req text,
    List.filter is_call (fresh s (process_file w f s).2)
    `prefix_of` [SttPost (STT_URL cfg) (STT_MODEL cfg) f; HookPost req;
                 WriteState text; Unlink f].
Proof.
  pose (anyone := hook_request "" (mkMetadata f 0 None 0)).
  attempt_cases w f s; cbn [snd];
    (rewrite fresh_refl
     || erewrite fresh_app by (normalise_logged; reflexivity));
    try match goal with
        | |- context [hook_log ?r] =>
            destruct (hook_log_is_log r) as (lvl & fmt & ->)
        end;
    cbn [List.filter is_call];
    first [ exists anyone, ""; eexists; reflexivity
          | eexists _, ""; eexists; reflexivity
          | eexists _, _; eexists; reflexivity ].
Qed.

(** *** The uploads of a sweep *)

Lemma process_file_uploads (w : World) (f : string) (s : Sys) :
  uploads (fresh s (process_file w f s).2) `sublist_of` [f].
Proof.
  attempt_cases w f s; cbn [snd];
    (rewrite fresh_refl
     || erewrite fresh_app by (normalise_logged; reflexivity));
    try match goal with
        | |- context [hook_log ?r] =>
            destruct (hook_log_is_log r) as (lvl & fmt & ->)
        end;
    cbn [uploads omap]; by repeat constructor.
Qed.

Lemma sweep_uploads (w : World) (paths : list string) :
  forall count s,
    uploads (fresh s (sweep w paths count s).2) `sublist_of` paths.
Proof.
  induction paths as [|path rest IH]; intros count s.
  { cbn [sweep]. exec. by rewrite fresh_refl. }
  cbn [sweep]. exec.
  destruct (_ && is_audio path); [|by apply sublist_cons, IH].
  pose proof (process_file_uploads w path s) as Hone.
  pose proof (process_file_grows w path s) as [_ Hpre].
  destruct (process_file w path s) as [[ok| |] s1]; cbn [snd] in *.
  - rewrite (fresh_trans s s1) by (done || apply sweep_grows).
    unfold uploads. rewrite omap_app.
    apply (sublist_app _ [path] _ rest); [done|apply IH].
  - etrans; [exact Hone|]. apply sublist_skip, sublist_nil_l.
  - etrans; [exact Hone|]. apply sublist_skip, sublist_nil_l.
Qed.

(** X13. The files that a sweep uploads are taken from the sorted listing
    of the watch directory in the order of that listing, and no file is
    uploaded twice in one sweep. *)
Theorem sweep_uploads_in_order (w : World) (s : Sys) :
  uploads (fresh s (process_existing w s).2)
  `sublist_of` Py.sorted (elements (dom (watch_dir s)))
  /\ NoDup (uploads (fresh s (process_existing w s).2)).
Proof.
  assert (uploads (fresh s (process_existing w s).2)
          `sublist_of` Py.sorted (elements (dom (watch_dir s)))) as Hsub.
  { unfold process_existing. exec.
    pose proof (sweep_uploads w (Py.sorted (elements (dom (watch_dir s)))) 0 s) as H.
    pose proof (sweep_grows w (Py.sorted (elements (dom (watch_dir s)))) 0 s)
      as [_ Hpre].
    destruct (sweep w _ 0 s) as [[count| |] s1]; cbn [snd] in *; [|done..].
    destruct (count =? 0)%Z; [done|]. exec.
    rewrite (fresh_trans s s1) by (done || by apply prefix_app_r).
    erewrite (fresh_app s1) by reflexivity.
    unfold uploads. rewrite omap_app. cbn [omap]. by rewrite app_nil_r. }
  split; [done|]. eapply sublist_NoDup; [|exact Hsub].
  unfold Py.sorted. rewrite merge_sort_Permutation. apply NoDup_elements.
Qed.


(** *** Loading, outcome by outcome *)

(** How lines 52-58 end, by the text that was read. *)
Lemma load_state_cases (s : Sys) :
  load_state s =
  match state_file s with
  | None => (Return ∅, s)
  | Some text =>
      match json_loads text with
      | None => (Return ∅, s)
      | Some (JObj fields) =>
          match Json.get "processed" (JArr []) fields with
          | JArr items =>
              if forallb Json.hashable items then
                if forallb Json.is_str items
                then (Return (list_to_set (omap Json.str_of items)), s)
                else (Untyped, s)
              else (Raise TypeError, s)
          | JStr t => (Return (list_to_set (chars t)), s)
          | JObj members => (Return (list_to_set (map fst members)), s)
          | JNull | JBool _ | JInt _ | JFloat _ => (Raise TypeError, s)
          end
      | Some _ => (Raise AttributeError, s)
      end
  end.
Proof.
  unfold load_state, py_set. exec.
  destruct (state_file s) as [text|]; [|done].
  destruct (json_loads text) as [data|]; exec; [|done].
  destruct data; exec; try done.
  destruct (Json.get "processed" (JArr []) fields); exec; try done.
  destruct (forallb Json.hashable items); exec; [|done].
  by destruct (forallb Json.is_str items).
Qed.

(** X1. Loading never changes the state, and the handler of line 56
    misses two exceptions. [AttributeError] is raised exactly when the
    text read from the state file is JSON that is not an object, and
    [TypeError] exactly when it is an object whose value under [processed]
    cannot be iterated or holds a member that cannot be hashed. *)
Theorem load_state_uncaught (s : Sys) :
  (load_state s).2 = s
  /\ ((load_state s).1 = Raise AttributeError
      <-> exists text data,
          state_file s = Some text /\ json_loads text = Some data
          /\ forall fields, data <> JObj fields)
  /\ ((load_state s).1 = Raise TypeError
      <-> exists text fields,
          state_file s = Some text /\ json_loads text = Some (JObj fields)
          /\ match Json.get "processed" (JArr []) fields with
             | JArr items => forallb Json.hashable items = false
             | JStr _ | JObj _ => False
             | JNull | JBool _ | JInt _ | JFloat _ => True
             end).
Proof.
  split; [apply load_state_state|].
  rewrite load_state_cases.
  destruct (state_file s) as [text|]; cbn [fst].
  2: { split; (split; [done|]); by intros (? & ? & ? & _). }
  destruct (json_loads text) as [data|] eqn:Hloads; cbn [fst].
  2: { split; (split; [done|]); intros (? & ? & [= <-] & ? & _); congruence. }
  assert (forall data', (forall fields, data' <> JObj fields) -> data = data' ->
            (Raise AttributeError : outcome (gset string)) = Raise AttributeError
            <-> exists text0 data0,
                Some text = Some text0 /\ json_loads text0 = Some data0
                /\ forall fields, data0 <> JObj fields) as Hattr.
  { intros data' Hno ->. split; [|done]. intros _. by exists text, data'. }
  assert (forall (r : outcome (gset string)) (P : list (string * json) -> Prop),
             (forall fields, data <> JObj fields) -> r <> Raise TypeError ->
             r = Raise TypeError
             <-> exists text0 fields,
                 Some text = Some text0 /\ json_loads text0 = Some (JObj fields)
                 /\ P fields) as Htype.
  { intros r P Hno Hr. split; [done|].
    intros (? & fields & [= <-] & Hl & _). rewrite Hloads in Hl.
    injection Hl as ->. by destruct (Hno fields). }
  destruct data.
  7: {
    split.
    { split; [|intros (? & ? & [= <-] & Hl & Hno);
               rewrite Hloads in Hl; injection Hl as <-; by destruct (Hno fields)].
      destruct (Json.get "processed" (JArr []) fields); cbn [fst]; try done.
      destruct (forallb Json.hashable items); [|done].
      by destruct (forallb Json.is_str items). }
    split.
    - intros Hr. exists text, fields. split; [done|]. split; [done|].
      destruct (Json.get "processed" (JArr []) fields); cbn [fst] in Hr; try done.
      destruct (forallb Json.hashable items); [|done].
      by destruct (forallb Json.is_str items).
    - intros (? & fields' & [= <-] & Hl & Hbad).
      rewrite Hloads in Hl. injection Hl as <-.
      destruct (Json.get "processed" (JArr []) fields); cbn [fst]; try done.
      by rewrite Hbad. }
  all: cbn [fst]; split;
    [eapply Hattr; [|reflexivity]; by intros ?|by apply Htype].
Qed.

(** *** Restart *)

(** X5. A restart does not process again what the state file records.
    When the state file holds a document that a save wrote, and
    [json.loads] reads back what [json.dumps] wrote, then [main], from its
    first sweep through every round of its loop, does nothing about a file
    whose name is in that document. *)
Theorem restart_skips_recorded_files (w : World) (rounds : list World)
    (s : Sys) (members : gset string) (updated : string) (f : string) :
  state_file s = Some (json_dumps (state_document members updated)) ->
  json_loads (json_dumps (state_document members updated))
  = Some (state_document members updated) ->
  f ∈ members ->
  left_alone f s (main w rounds s).2.
Proof.
  intros Hfile Hlib Hin.
  assert (forall events : list event,
             Forall (fun e => subject e <> Some f) events ->
             left_alone f s (logged s events)) as Hlogs.
  { intros events Hev. split; [|done]. by erewrite fresh_app by reflexivity. }
  unfold main, startup. exec. rewrite validate_config_run.
  destruct missing_settings as [|name others].
  2: { exec. apply (Hlogs [_]). by apply Forall_singleton. }
  exec.
  erewrite load_state_names; [|exact Hfile|exact Hlib|reflexivity].
  exec.
  set (s0 := mkSys _ _ _ _).
  assert (f ∈ processed s0) as Hin0.
  { cbn. apply elem_of_list_to_set. unfold Py.sorted.
    rewrite merge_sort_Permutation. by apply elem_of_elements. }
  pose proof (left_alone_preorder f) as Hpre.
  assert (forall a lvl fmt,
             f ∈ processed a ->
             grows a (logged a [Log lvl fmt])
             /\ left_alone f a (logged a [Log lvl fmt])) as Hline.
  { intros a lvl fmt _. split; [apply grows_logged|]. split; [|done].
    erewrite fresh_app by reflexivity. by apply Forall_singleton. }
  pose proof (fun w g a => process_file_left_alone f w g a) as Hstep.
  assert (forall s2,
             (f ∈ processed s0 -> grows s0 s2 /\ left_alone f s0 s2) ->
             left_alone f s s2) as Hback.
  { intros s2 H2. destruct (H2 Hin0) as ([_ Hp] & Hf & Hd).
    split; [|exact Hd].
    assert (exists events,
               trace s0 = trace s ++ events
               /\ Forall (fun e => subject e <> Some f) events)
      as (events & Hev & Hnone).
    { unfold s0. cbn [trace]. rewrite <- !app_assoc. cbn [app].
      eexists. split; [reflexivity|].
      repeat (apply Forall_cons; split; [done|]). apply Forall_nil_2. }
    rewrite (fresh_trans s s0 s2) by (done || rewrite Hev; by apply prefix_app_r).
    apply Forall_app. split; [|done].
    by rewrite (fresh_app s s0 events Hev). }
  pose proof (process_existing_keeps _ Hpre Hline Hstep w s0) as H1.
  destruct (process_existing w s0) as [[[]| |] s1]; cbn [snd] in H1;
    [|by apply Hback..].
  cbn [snd] in *. apply Hback.
  eapply (@PreOrder_Transitive _ _ Hpre s0 s1); [exact H1|].
  match goal with
  | |- context [main_loop rounds ?a] =>
      pose proof (main_loop_keeps _ Hpre Hline Hstep rounds a) as H2;
      set (s3 := a) in *
  end.
  assert (f ∈ processed s1 -> grows s1 s3 /\ left_alone f s1 s3) as H13.
  { intros _.
    assert (trace s3 = trace s1 ++ [Log INFO "Using inotify file watcher";
              Log INFO "Using polling observer (interval: %ds) — required for CephFS/NFS";
              Log INFO "Watching for audio files... (Ctrl+C to stop)"]) as Hev.
    { unfold s3. cbn [trace]. by rewrite <- !app_assoc. }
    split; [split; [done|]; rewrite Hev; by apply prefix_app_r|].
    split; [|done]. rewrite (fresh_app s1 s3 _ Hev).
    repeat (apply Forall_cons; split; [done|]). apply Forall_nil_2. }
  exact (@PreOrder_Transitive _ _ Hpre s1 s3 _ H13 H2).
Qed.


(** *** The store follows the set *)

Lemma process_file_store (w : World) (f : string) (s : Sys) (ok : bool) (s1 : Sys) :
  process_file w f s = (Return ok, s1) ->
  processed s1 = processed s /\ state_file s1 = state_file s
  \/ exists updated,
      state_file s1 = Some (json_dumps (state_document (processed s1) updated)).
Proof.
  intros Hrun.
  destruct (process_file_run w f s)
    as [(r & rest & Hr & _ & _)|(rest & req & Hr & _ & _ & _ & _)];
    rewrite Hr in Hrun.
  - injection Hrun as _ <-. by left.
  - destruct (on_success_facts _ _ _ _ _ Hrun) as (Hp & _ & [[_ Hs]|[[=] _]]).
    right. exists (now_iso w). by rewrite Hs, Hp.
Qed.

Lemma sweep_store (w : World) (paths : list string) :
  forall count s n s',
    sweep w paths count s = (Return n, s') ->
    processed s' = processed s /\ state_file s' = state_file s
    \/ exists updated,
        state_file s' = Some (json_dumps (state_document (processed s') updated)).
Proof.
  induction paths as [|path rest IH]; intros count s n s'.
  { cbn [sweep]. exec. intros [= _ <-]. by left. }
  cbn [sweep]. exec.
  destruct (_ && is_audio path); [|by apply IH].
  destruct (process_file w path s) as [[ok| |] s1] eqn:Hrun; [|done..].
  intros Hrest. apply IH in Hrest.
  destruct (process_file_store _ _ _ _ _ Hrun) as [[Hp Hs]|Hsync];
    destruct Hrest as [[Hp' Hs']|Hsync'].
  - left. split; congruence.
  - by right.
  - right. destruct Hsync as (updated & Hu). exists updated.
    by rewrite Hs', Hp'.
  - by right.
Qed.

(** X16. The state file keeps in step with the Processed-Set. When the
    polling loop has run its rounds without an exception, either it has
    changed neither the set nor the file, or the file holds the document
    of the set as it now is. *)
Theorem store_follows_set (rounds : list World) :
  forall s s',
    main_loop rounds s = (Return tt, s') ->
    processed s' = processed s /\ state_file s' = state_file s
    \/ exists updated,
        state_file s' = Some (json_dumps (state_document (processed s') updated)).
Proof.
  induction rounds as [|w rest IH]; intros s s'.
  { cbn [main_loop]. exec. intros [= <-]. by left. }
  cbn [main_loop]. unfold process_existing. exec.
  destruct (sweep w _ 0 s) as [[count| |] s1] eqn:Hsweep; [|done..].
  apply sweep_store in Hsweep.
  assert (forall s2,
             processed s2 = processed s1 -> state_file s2 = state_file s1 ->
             main_loop rest s2 = (Return tt, s') ->
             processed s' = processed s /\ state_file s' = state_file s
             \/ exists updated,
                 state_file s'
                 = Some (json_dumps (state_document (processed s') updated)))
    as Hnext.
  { intros s2 Hp2 Hs2 Hrest. apply IH in Hrest. rewrite Hp2, Hs2 in Hrest.
    destruct Hsweep as [[Hp Hs]|Hsync]; destruct Hrest as [[Hp' Hs']|Hsync'].
    - left. split; congruence.
    - by right.
    - right. destruct Hsync as (updated & Hu). exists updated.
      by rewrite Hs', Hp'.
    - by right. }
  destruct (count =? 0)%Z; exec; by apply Hnext.
Qed.

(** *** Audio names *)

Lemma lower_char_dot (c : ascii) :
  Ascii.eqb (Py.lower_char c) "." = Ascii.eqb c ".".
Proof. destruct c as [[] [] [] [] [] [] [] []]; reflexivity. Qed.

Lemma rfind_dot_lower (s : string) : Py.rfind_dot (Py.lower s) = Py.rfind_dot s.
Proof.
  induction s as [|c s IH]; [done|].
  cbn [Py.lower Py.rfind_dot]. by rewrite IH, lower_char_dot.
Qed.

Lemma length_lower (s : string) : String.length (Py.lower s) = String.length s.
Proof. induction s as [|c s IH]; [done|]. cbn. by rewrite IH. Qed.

Lemma str_app_length (a b : string) :
  String.length (a +:+ b) = (String.length a + String.length b)%nat.
Proof.
  induction a as [|c a IH]; [done|]. rewrite str_app_cons. cbn. by rewrite IH.
Qed.

Lemma rfind_dot_app (stem ext : string) (j : nat) :
  Py.rfind_dot ext = Some j ->
  Py.rfind_dot (stem +:+ ext) = Some (String.length stem + j)%nat.
Proof.
  intros H. induction stem as [|c stem IH]; [done|].
  rewrite str_app_cons. cbn [Py.rfind_dot]. by rewrite IH.
Qed.

Lemma drop_chars_app (stem ext : string) :
  Py.drop_chars (String.length stem) (stem +:+ ext) = ext.
Proof. induction stem as [|c stem IH]; [done|]. by rewrite str_app_cons. Qed.

Lemma take_drop_chars (n : nat) (s : string) :
  Py.take_chars n s +:+ Py.drop_chars n s = s.
Proof.
  revert s. induction n as [|n IH]; intros s; [done|].
  destruct s as [|c s]; [done|].
  cbn [Py.take_chars Py.drop_chars]. by rewrite str_app_cons, IH.
Qed.

Lemma extension_shape (x : string) :
  x ∈ AUDIO_EXTENSIONS -> Py.rfind_dot x = Some 0%nat /\ (2 <= String.length x)%nat.
Proof.
  unfold AUDIO_EXTENSIONS. intros H.
  repeat (apply elem_of_cons in H as [->|H]; [split; [reflexivity|cbn; lia]|]).
  by apply elem_of_nil in H.
Qed.

Lemma is_audio_elem (path : string) :
  is_audio path = true <-> Py.lower (Py.suffix path) ∈ AUDIO_EXTENSIONS.
Proof.
  unfold is_audio. rewrite existsb_exists. split.
  - intros (x & Hx & ->%String.eqb_eq). by apply list_elem_of_In.
  - intros H. eexists. split; [by apply list_elem_of_In|apply String.eqb_refl].
Qed.

(** X14. What counts as an audio file: a name is taken for audio exactly
    when it is a stem that is not empty followed by one of the seven
    extensions, in any mix of upper and lower case. A name that is an
    extension and nothing else is not. *)
Theorem audio_names (path : string) :
  is_audio path = true
  <-> exists stem ext,
      path = stem +:+ ext /\ stem <> "" /\ Py.lower ext ∈ AUDIO_EXTENSIONS.
Proof.
  rewrite is_audio_elem. split.
  - unfold Py.suffix.
    destruct (Py.rfind_dot path) as [i|] eqn:Hdot.
    2: { intros H. by destruct (extension_shape _ H) as [? _]. }
    destruct ((0 <? i)%nat && (i <? String.length path - 1)%nat) eqn:Hpos.
    2: { intros H. by destruct (extension_shape _ H) as [? _]. }
    intros Hext. exists (Py.take_chars i path), (Py.drop_chars i path).
    split; [by rewrite take_drop_chars|]. split; [|done].
    apply andb_true_iff in Hpos as [Hi%Nat.ltb_lt Hlen%Nat.ltb_lt].
    destruct i as [|i]; [lia|]. destruct path as [|c path]; [cbn in Hlen; lia|].
    done.
  - intros (stem & ext & -> & Hstem & Hext).
    destruct (extension_shape _ Hext) as [Hdot Hlen].
    rewrite rfind_dot_lower in Hdot. rewrite length_lower in Hlen.
    unfold Py.suffix. rewrite (rfind_dot_app stem ext 0 Hdot), Nat.add_0_r.
    assert ((0 <? String.length stem)%nat
            && (String.length stem <? String.length (stem +:+ ext) - 1)%nat = true)
      as ->.
    { apply andb_true_iff. rewrite str_app_length.
      split; apply Nat.ltb_lt; [|lia].
      destruct stem; [done|cbn; lia]. }
    by rewrite drop_chars_app.
Qed.




(** *** Every candidate gets its turn *)

Lemma process_file_others (w : World) (f : string) (s : Sys) (p : string) :
  p <> f ->
  watch_dir (process_file w f s).2 !! p = watch_dir s !! p
  /\ (p ∉ processed s -> p ∉ processed (process_file w f s).2).
Proof.
  intros Hne. split.
  { destruct (process_file_dir w f s) as [->|(-> & _)]; [done|].
    by apply lookup_delete_ne. }
  destruct (process_file_run w f s)
    as [(r & rest & -> & _ & _)|(rest & req & -> & _ & _ & _ & _)]; [done|].
  destruct (on_success w f _) as [r s'] eqn:Hrun.
  destruct (on_success_facts _ _ _ _ _ Hrun) as (Hp & _ & _).
  cbn [snd]. rewrite Hp. cbn [logged processed].
  intros Hout [Hin%elem_of_singleton|Hin]%elem_of_union; done.
Qed.

Lemma process_file_uploads_candidate (w : World) (f : string) (s : Sys)
    (e : DirEntry) :
  watch_dir s !! f = Some e -> is_dir e = false -> unreadable w f = false ->
  f ∉ processed s ->
  Py.float_lt_int (clock w f - st_mtime e) (MIN_FILE_AGE cfg) = false ->
  f ∈ uploads (fresh s (process_file w f s).2).
Proof.
  intros He Hd Hr Hnew Hage.
  destruct (process_file_trace w f s) as (rest & Ht).
  rewrite (fresh_app _ _ _ Ht). unfold opening, upload.
  rewrite bool_decide_eq_false_2, He, Hage, Hd, Hr by done.
  cbn. apply list_elem_of_here.
Qed.

Lemma sweep_uploads_candidate (w : World) (paths : list string) (p : string) :
  forall count s n s' e,
    sweep w paths count s = (Return n, s') ->
    p ∈ paths ->
    watch_dir s !! p = Some e -> is_dir e = false -> unreadable w p = false ->
    is_audio p = true -> p ∉ processed s ->
    Py.float_lt_int (clock w p - st_mtime e) (MIN_FILE_AGE cfg) = false ->
    p ∈ uploads (fresh s s').
Proof.
  induction paths as [|path rest IH]; intros count s n s' e Hrun Hp He Hd Hr Ha Hnew Hage.
  { by apply elem_of_nil in Hp. }
  revert Hrun. cbn [sweep]. exec.
  destruct (decide (p = path)) as [<-|Hne].
  - rewrite He, Hd, Ha. cbn [negb andb].
    pose proof (process_file_uploads_candidate w p s e He Hd Hr Hnew Hage) as Hup.
    pose proof (process_file_grows w p s) as [_ Hpre].
    destruct (process_file w p s) as [[ok| |] s1]; cbn [snd] in *; [|done..].
    intros Hrest.
    pose proof (sweep_grows w rest (if ok then count + 1 else count)%Z s1) as [_ Hpre'].
    rewrite Hrest in Hpre'. cbn [snd] in Hpre'.
    rewrite (fresh_trans s s1 s') by done.
    unfold uploads. rewrite omap_app. by apply elem_of_app; left.
  - apply elem_of_cons in Hp as [?|Hp]; [done|].
    destruct (_ && is_audio path);
      [|intros Hrest; by apply (IH count s n s' e)].
    destruct (process_file_others w path s p Hne) as [Hsame Hstill].
    pose proof (process_file_grows w path s) as [_ Hpre].
    destruct (process_file w path s) as [[ok| |] s1]; cbn [snd] in *; [|done..].
    intros Hrest.
    pose proof (sweep_grows w rest (if ok then count + 1 else count)%Z s1) as [_ Hpre'].
    rewrite Hrest in Hpre'. cbn [snd] in Hpre'.
    rewrite (fresh_trans s s1 s') by done.
    unfold uploads. rewrite omap_app. apply elem_of_app; right.
    apply (IH (if ok then count + 1 else count)%Z s1 n s' e);
      [exact Hrest|done|by rewrite Hsame|done..|by apply Hstill|done].
Qed.

(** X17. A sweep that returns has uploaded every candidate: each regular
    file of the watch directory that can be opened, has an audio
    extension, is not in the Processed-Set and whose age, as line 172
    computes it, is not below [MIN_FILE_AGE] was sent to the STT endpoint
    during the sweep. *)
Theorem sweep_uploads_every_candidate (w : World) (s s' : Sys) (p : string)
    (e : DirEntry) :
  process_existing w s = (Return tt, s') ->
  watch_dir s !! p = Some e -> is_dir e = false -> unreadable w p = false ->
  is_audio p = true -> p ∉ processed s ->
  Py.float_lt_int (clock w p - st_mtime e) (MIN_FILE_AGE cfg) = false ->
  p ∈ uploads (fresh s s').
Proof.
  intros Hrun He Hd Hr Ha Hnew Hage. revert Hrun.
  unfold process_existing. exec.
  destruct (sweep w _ 0 s) as [[count| |] s1] eqn:Hsweep; [|done..].
  assert (p ∈ uploads (fresh s s1)) as Hup.
  { eapply sweep_uploads_candidate; [exact Hsweep| |done..].
    apply listing_elem. by eauto. }
  pose proof (sweep_grows w (Py.sorted (elements (dom (watch_dir s)))) 0 s) as [_ Hpre].
  rewrite Hsweep in Hpre. cbn [snd] in Hpre.
  destruct (count =? 0)%Z; exec; intros [= <-]; [done|].
  rewrite (fresh_trans s s1) by (done || by apply prefix_app_r).
  unfold uploads. rewrite omap_app. by apply elem_of_app; left.
Qed.



End Service.

(** ** Runs of the concrete installation *)

Lemma processed_file_is_ignored_witness :
  "note1.m4a" ∈ processed Scenario.delivered
  /\ process_file Scenario.cfg JsonText.loads JsonText.dumps Scenario.calm
       "note1.m4a" Scenario.delivered = (Return false, Scenario.delivered).
Proof.
  assert (H : "note1.m4a" ∈ processed Scenario.delivered) by (by vm_compute).
  split; [exact H|].
  exact (proj1 (processed_file_is_ignored Scenario.cfg JsonText.loads JsonText.dumps
                  Scenario.calm "note1.m4a" Scenario.delivered H)).
Defined.

Lemma age_gate_witness :
  process_file Scenario.cfg JsonText.loads JsonText.dumps (Scenario.at_time 92)
    "note1.m4a" Scenario.one_note
  = (Return false,
     logged Scenario.one_note [Log DEBUG "Skipping %s (too new, age=%.1fs)"])
  /\ exists rest,
      trace (process_file Scenario.cfg JsonText.loads JsonText.dumps
               (Scenario.at_time 0x1.5333333333333p+2)
               "note1.m4a" Scenario.one_early).2
      = trace Scenario.one_early
          ++ Log INFO "Processing: %s (%.1f KB)"
             :: SttPost (STT_URL Scenario.cfg) (STT_MODEL Scenario.cfg) "note1.m4a"
             :: rest.
Proof.
  assert (Hnew : "note1.m4a" ∉ processed Scenario.one_note)
    by (apply (bool_decide_unpack _); vm_compute; exact I).
  assert (He : watch_dir Scenario.one_note !! "note1.m4a" = Some Scenario.note)
    by (vm_compute; reflexivity).
  assert (Hnew' : "note1.m4a" ∉ processed Scenario.one_early)
    by (apply (bool_decide_unpack _); vm_compute; exact I).
  assert (He' : watch_dir Scenario.one_early !! "note1.m4a" = Some Scenario.early)
    by (vm_compute; reflexivity).
  split.
  - apply (proj1 (proj2 (age_gate Scenario.cfg JsonText.loads JsonText.dumps
                           (Scenario.at_time 92) "note1.m4a" Scenario.one_note
                           Scenario.note Hnew He))).
    vm_compute. reflexivity.
  - apply (proj2 (proj2 (age_gate Scenario.cfg JsonText.loads JsonText.dumps
                           (Scenario.at_time 0x1.5333333333333p+2) "note1.m4a"
                           Scenario.one_early Scenario.early Hnew' He'))).
    + vm_compute. reflexivity.
    + reflexivity.
    + reflexivity.
Defined.

Lemma failed_delivery_is_retried_witness :
  exists r events,
    process_file Scenario.cfg JsonText.loads JsonText.dumps
      (Scenario.hook_answers 503) "note1.m4a" Scenario.one_note
    = (r, logged Scenario.one_note events)
    /\ r <> Return true
    /\ forallb (fun e => negb (is_store_write e || is_unlink e)) events = true.
Proof.
  destruct (proj2 (failed_delivery_is_retried Scenario.cfg JsonText.loads
                     JsonText.dumps (Scenario.hook_answers 503) "note1.m4a"
                     Scenario.one_note))
    as (r & events & Hrun & Hr & Hquiet & _).
  - intros req _. vm_compute. reflexivity.
  - exists r, events. split; [exact Hrun|]. split; [exact Hr|exact Hquiet].
Defined.

Lemma processed_set_discipline_witness :
  "note1.m4a" ∈ processed
    (process_file Scenario.cfg JsonText.loads JsonText.dumps Scenario.undeletable
       "note1.m4a" Scenario.one_note).2
  /\ state_file
       (process_file Scenario.cfg JsonText.loads JsonText.dumps Scenario.undeletable
          "note1.m4a" Scenario.one_note).2
     = Some (JsonText.dumps
               (state_document ({["note1.m4a"]} ∪ processed Scenario.one_note)
                  (now_iso Scenario.undeletable))).
Proof.
  apply (proj1 (proj2 (proj2 (processed_set_discipline Scenario.cfg JsonText.loads
                                JsonText.dumps Scenario.undeletable "note1.m4a"
                                Scenario.one_note)))).
  vm_compute. reflexivity.
Defined.

Lemma missing_setting_aborts_startup_witness :
  main (config_of_env ∅ 5 5) JsonText.loads JsonText.dumps Scenario.calm
    [Scenario.calm] Scenario.one_note
  = (Raise (SystemExit 1),
     logged Scenario.one_note [Log ERROR "STT_URL is required"])
  /\ validate_config Scenario.cfg Scenario.one_note = (Return tt, Scenario.one_note).
Proof.
  split.
  - apply (proj1 (missing_setting_aborts_startup (config_of_env ∅ 5 5)
                    JsonText.loads JsonText.dumps Scenario.calm [Scenario.calm]
                    Scenario.one_note)
             "STT_URL" ["OPENCLAW_URL"; "OPENCLAW_HOOK_TOKEN"]).
    vm_compute. reflexivity.
  - apply (proj2 (missing_setting_aborts_startup Scenario.cfg
                    JsonText.loads JsonText.dumps Scenario.calm [Scenario.calm]
                    Scenario.one_note)); vm_compute; discriminate.
Defined.

Lemma transcript_text_is_not_blank_witness :
  transcribe Scenario.cfg JsonText.loads
    (Scenario.stt_answers (JsonText.dumps (JObj [("text", JStr "   ")])))
    "note1.m4a" Scenario.one_note
  = (Return None,
     logged Scenario.one_note
       [SttPost (STT_URL Scenario.cfg) (STT_MODEL Scenario.cfg) "note1.m4a";
        Log WARNING "Empty transcript for %s"]).
Proof.
  apply (proj1 (transcript_text_is_not_blank Scenario.cfg JsonText.loads
                  (Scenario.stt_answers (JsonText.dumps (JObj [("text", JStr "   ")])))
                  "note1.m4a" Scenario.one_note)
           Scenario.note 200%Z
           (JsonText.dumps (JObj [("text", JStr "   ")]))
           [("text", JStr "   ")] "   ");
    vm_compute; reflexivity.
Defined.

Lemma save_then_load_witness :
  exists s1,
    save_state JsonText.dumps Scenario.calm {["b.m4a"; "a.m4a"]} Scenario.one_note
    = (Return tt, s1)
    /\ load_state JsonText.loads s1 = (Return {["b.m4a"; "a.m4a"]}, s1).
Proof.
  destruct (save_then_load JsonText.loads JsonText.dumps Scenario.calm
              {["b.m4a"; "a.m4a"]} Scenario.one_note)
    as (s1 & Hsave & _ & Hload).
  - reflexivity.
  - vm_compute. reflexivity.
  - exists s1. split; [exact Hsave|exact Hload].
Defined.

Lemma save_rewrites_in_place_witness :
  last (WriteText.stages (state_file Scenario.one_note)
          [JsonText.dumps (state_document {["note1.m4a"]} (now_iso Scenario.calm))])
  = Some (Some (JsonText.dumps
                  (state_document {["note1.m4a"]} (now_iso Scenario.calm)))).
Proof.
  assert (H : WriteText.concat_chunks
                [JsonText.dumps (state_document {["note1.m4a"]} (now_iso Scenario.calm))]
              = JsonText.dumps (state_document {["note1.m4a"]} (now_iso Scenario.calm)))
    by (vm_compute; reflexivity).
  exact (proj1 (proj2 (save_rewrites_in_place JsonText.dumps Scenario.calm
                         {["note1.m4a"]} Scenario.one_note _ H))).
Defined.

(** C4, as the specification has it, fails: a crash that falls between the
    opening of the state file and the writing of the text leaves an empty
    file, which is neither the document that was there nor the new one. *)
Lemma crash_after_open_leaves_empty_file :
  WriteText.stages
    (Some (JsonText.dumps (state_document ∅ "2025-12-31T00:00:00+00:00")))
    [JsonText.dumps (state_document {["note1.m4a"]} (now_iso Scenario.calm))]
    !! 1%nat
  = Some (Some "")
  /\ ~ WriteText.old_or_new
         (Some (JsonText.dumps (state_document ∅ "2025-12-31T00:00:00+00:00")))
         (JsonText.dumps (state_document {["note1.m4a"]} (now_iso Scenario.calm)))
         (Some "").
Proof.
  split; [reflexivity|].
  unfold WriteText.old_or_new. vm_compute. intros [H|H]; discriminate H.
Qed.

(** C2 on the code. The state file cannot be written, the directory holds
    [a.m4a] and [b.m4a], and both endpoints accept. The [OSError] of
    [save_state] leaves [process_file] and the sweep: [b.m4a] is never
    uploaded although the same sweep handles both files when the store can
    be written, the name of [a.m4a] is in the set in memory and not on
    disk, and the loop of [main] ends with the exception instead of going
    on to its next round. *)
Theorem store_fault_aborts_sweep :
  let broken := Scenario.read_only_store None in
  let run := process_existing Scenario.cfg JsonText.loads JsonText.dumps broken
               Scenario.two_notes in
  let fine := process_existing Scenario.cfg JsonText.loads JsonText.dumps
                Scenario.calm Scenario.two_notes in
  run.1 = Raise OSError
  /\ filter is_stt_post (trace run.2)
     = [SttPost (STT_URL Scenario.cfg) (STT_MODEL Scenario.cfg) "a.m4a"]
  /\ elements (processed run.2) = ["a.m4a"]
  /\ state_file run.2 = None
  /\ elements (dom (watch_dir run.2)) = elements (dom (watch_dir Scenario.two_notes))
  /\ fine.1 = Return tt
  /\ filter is_stt_post (trace fine.2)
     = [SttPost (STT_URL Scenario.cfg) (STT_MODEL Scenario.cfg) "a.m4a";
        SttPost (STT_URL Scenario.cfg) (STT_MODEL Scenario.cfg) "b.m4a"]
  /\ (main_loop Scenario.cfg JsonText.loads JsonText.dumps
        [broken; Scenario.calm] Scenario.two_notes).1 = Raise OSError
  /\ filter is_stt_post
       (trace (main_loop Scenario.cfg JsonText.loads JsonText.dumps
                 [broken; Scenario.calm] Scenario.two_notes).2)
     = [SttPost (STT_URL Scenario.cfg) (STT_MODEL Scenario.cfg) "a.m4a"]
  /\ (main Scenario.cfg JsonText.loads JsonText.dumps broken [Scenario.calm]
        Scenario.two_notes).1 = Raise OSError.
Proof. vm_compute. repeat split; reflexivity. Qed.

(** C3 on the code. A state file that holds the JSON text of a list is
    read without a decoding error, and the [get] on the list raises an
    [AttributeError] that the handler of [load_state] does not name: the
    call raises, and so does [main]. A dict whose [processed] is a number
    raises a [TypeError] the same way. Text that is not JSON, and no file
    at all, do give the empty set. *)
Theorem load_state_raises_on_json_list :
  JsonText.loads "[]" = Some (JArr [])
  /\ load_state JsonText.loads (Scenario.with_state_file "[]")
     = (Raise AttributeError, Scenario.with_state_file "[]")
  /\ (main Scenario.cfg JsonText.loads JsonText.dumps Scenario.calm [Scenario.calm]
        (Scenario.with_state_file "[]")).1 = Raise AttributeError
  /\ (load_state JsonText.loads
        (Scenario.with_state_file (JsonText.dumps (JObj [("processed", JInt 5)])))).1
     = Raise TypeError
  /\ (load_state JsonText.loads (Scenario.with_state_file "not json")).1 = Return ∅
  /\ (load_state JsonText.loads Scenario.one_note).1 = Return ∅.
Proof.
  split; [reflexivity|]. split.
  { apply (load_state_not_a_dict JsonText.loads _ "[]" (JArr [])); done. }
  split; [by vm_compute|]. split; [by vm_compute|].
  split.
  - by rewrite (load_state_undecodable JsonText.loads _ "not json").
  - by rewrite load_state_absent.
Qed.


(** ** Further runs of the concrete installation *)

Lemma rstrip_slash_app_slash (u : string) :
  Py.rstrip_slash (u +:+ "/") = Py.rstrip_slash u.
Proof.
  induction u as [|c u IH]; [reflexivity|].
  change (String c u +:+ "/") with (String c (u +:+ "/")).
  cbn [Py.rstrip_slash]. by rewrite IH.
Qed.

(** X15. One slash more at the end of [OPENCLAW_URL] does not change the
    address that the delivery is posted to: the trailing slashes of the
    setting are dropped before the hook path is appended. *)
Theorem webhook_url_ignores_trailing_slash (cfg cfg' : Config)
    (t : string) (md : Metadata) :
  OPENCLAW_URL cfg' = OPENCLAW_URL cfg +:+ "/" ->
  OPENCLAW_HOOK_PATH cfg' = OPENCLAW_HOOK_PATH cfg ->
  webhook_url (hook_request cfg' t md) = webhook_url (hook_request cfg t md).
Proof.
  intros Hurl Hpath. unfold hook_request. cbn [webhook_url].
  by rewrite Hurl, Hpath, rstrip_slash_app_slash.
Qed.

Lemma webhook_url_ignores_trailing_slash_witness :
  webhook_url (hook_request Scenario.slashed "buy milk"
                 (mkMetadata "note1.m4a" 90 None 2048))
  = webhook_url (hook_request Scenario.cfg "buy milk"
                   (mkMetadata "note1.m4a" 90 None 2048)).
Proof.
  apply (webhook_url_ignores_trailing_slash Scenario.cfg Scenario.slashed);
    vm_compute; reflexivity.
Defined.

Lemma delivered_file_left_alone_witness :
  left_alone "note1.m4a" Scenario.delivered
    (main_loop Scenario.cfg JsonText.loads JsonText.dumps
       [Scenario.calm; Scenario.calm] Scenario.delivered).2.
Proof.
  assert (H : "note1.m4a" ∈ processed Scenario.delivered) by (by vm_compute).
  exact (proj1 (delivered_file_left_alone Scenario.cfg JsonText.loads JsonText.dumps
                  "note1.m4a" Scenario.delivered H)
           [Scenario.calm; Scenario.calm]).
Defined.

Lemma deletion_disabled_witness :
  no_deletion Scenario.one_note
    (main_loop Scenario.keep JsonText.loads JsonText.dumps
       [Scenario.calm] Scenario.one_note).2.
Proof.
  assert (H : DELETE_AFTER Scenario.keep = false) by (vm_compute; reflexivity).
  exact (proj1 (deletion_disabled Scenario.keep JsonText.loads JsonText.dumps
                  Scenario.one_note H)
           [Scenario.calm]).
Defined.

Lemma answer_false_changes_nothing_witness :
  exists events,
    (process_file Scenario.cfg JsonText.loads JsonText.dumps (Scenario.at_time 92)
       "note1.m4a" Scenario.one_note).2
    = logged Scenario.one_note events.
Proof.
  destruct (answer_false_changes_nothing Scenario.cfg JsonText.loads JsonText.dumps
              (Scenario.at_time 92) "note1.m4a" Scenario.one_note)
    as (events & H & _).
  - vm_compute. reflexivity.
  - exists events. exact H.
Defined.

Lemma sweep_counts_new_names_witness :
  2%Z
  = (0 + Z.of_nat
           (size (processed
                    (sweep Scenario.cfg JsonText.loads JsonText.dumps Scenario.calm
                       ["a.m4a"; "b.m4a"] 0 Scenario.two_notes).2
                  ∖ processed Scenario.two_notes)))%Z.
Proof.
  apply (sweep_counts_new_names Scenario.cfg JsonText.loads JsonText.dumps
           Scenario.calm ["a.m4a"; "b.m4a"] 0%Z Scenario.two_notes 2%Z).
  vm_compute. reflexivity.
Defined.

Lemma stt_failure_is_contained_witness :
  exists fmt,
    transcribe Scenario.cfg JsonText.loads Scenario.stt_down
      "note1.m4a" Scenario.one_note
    = (Return None,
       logged Scenario.one_note
         [SttPost (STT_URL Scenario.cfg) (STT_MODEL Scenario.cfg) "note1.m4a";
          Log ERROR fmt]).
Proof.
  destruct (stt_failure_is_contained Scenario.cfg JsonText.loads JsonText.dumps
              Scenario.stt_down "note1.m4a" Scenario.one_note Scenario.note)
    as (fmt & H & _).
  - vm_compute. reflexivity.
  - reflexivity.
  - left. reflexivity.
  - exists fmt. exact H.
Defined.

Lemma restart_skips_recorded_files_witness :
  left_alone "note1.m4a" Scenario.restarted
    (main Scenario.cfg JsonText.loads JsonText.dumps Scenario.calm
       [Scenario.calm] Scenario.restarted).2.
Proof.
  apply (restart_skips_recorded_files Scenario.cfg JsonText.loads JsonText.dumps
           Scenario.calm [Scenario.calm] Scenario.restarted
           {["note1.m4a"]} "2026-01-01T00:00:00+00:00" "note1.m4a").
  - vm_compute. reflexivity.
  - vm_compute. reflexivity.
  - by vm_compute.
Defined.

Lemma store_follows_set_witness :
  processed (main_loop Scenario.cfg JsonText.loads JsonText.dumps
               [Scenario.calm] Scenario.one_note).2
  = processed Scenario.one_note
  /\ state_file (main_loop Scenario.cfg JsonText.loads JsonText.dumps
                   [Scenario.calm] Scenario.one_note).2
     = state_file Scenario.one_note
  \/ exists updated,
      state_file (main_loop Scenario.cfg JsonText.loads JsonText.dumps
                    [Scenario.calm] Scenario.one_note).2
      = Some (JsonText.dumps
                (state_document
                   (processed (main_loop Scenario.cfg JsonText.loads JsonText.dumps
                                 [Scenario.calm] Scenario.one_note).2)
                   updated)).
Proof.
  apply (store_follows_set Scenario.cfg JsonText.loads JsonText.dumps
           [Scenario.calm] Scenario.one_note).
  vm_compute. reflexivity.
Defined.


Lemma sweep_uploads_every_candidate_witness :
  "b.m4a" ∈ uploads
    (fresh Scenario.two_notes
       (process_existing Scenario.cfg JsonText.loads JsonText.dumps
          Scenario.calm Scenario.two_notes).2).
Proof.
  assert (Hnew : "b.m4a" ∉ processed Scenario.two_notes)
    by (apply (bool_decide_unpack _); vm_compute; exact I).
  apply (sweep_uploads_every_candidate Scenario.cfg JsonText.loads JsonText.dumps
           Scenario.calm Scenario.two_notes _ "b.m4a" Scenario.note).
  - vm_compute. reflexivity.
  - vm_compute. reflexivity.
  - reflexivity.
  - reflexivity.
  - vm_compute. reflexivity.
  - exact Hnew.
  - vm_compute. reflexivity.
Defined.


Lemma malformed_stt_answer_escapes_witness :
  transcribe Scenario.cfg JsonText.loads (Scenario.stt_answers "[]")
    "note1.m4a" Scenario.one_note
  = (Raise AttributeError,
     logged Scenario.one_note
       [SttPost (STT_URL Scenario.cfg) (STT_MODEL Scenario.cfg) "note1.m4a"]).
Proof.
  apply (malformed_stt_answer_escapes Scenario.cfg JsonText.loads JsonText.dumps
           (Scenario.stt_answers "[]") "note1.m4a" Scenario.one_note
           Scenario.note 200%Z "[]" (JArr [])).
  - vm_compute. reflexivity.
  - reflexivity.
  - reflexivity.
  - reflexivity.
  - vm_compute. reflexivity.
  - intros fields t H. discriminate H.
Defined.
